(** * Calendar availability engine ([CalendarService])

    A shallow embedding of the slot scanner [calculateFreeSlotsAdvanced], of
    its timezone helpers and of the error paths of the service methods that
    wrap the calendar provider.

    Conventions.
    - A JavaScript [Date] is its epoch value: an integer number of
      milliseconds since 1970-01-01T00:00:00Z ([Z]).  Numbers passed as
      minutes or hours are integers ([Z]).
    - [Intl.DateTimeFormat] reads a wall clock in a named zone.  The zone
      database is a parameter [tzdata]: the UTC offset, in minutes east of
      Greenwich, of a named zone at an instant.  The formatted hour is taken
      in 0..23.
    - [Date.prototype.getMinutes], [getSeconds], [getMilliseconds] and
      [setMinutes] read and write the wall clock of the zone the process runs
      in, [localZone]; [setMinutes] is modelled for instants between which
      that zone does not change its offset.
    - [new Date()] inside a method is the parameter [now].
    - A loop that the source does not bound runs on fuel; [None] is "still
      running when the fuel ran out". *)

From Stdlib Require Import ZArith List String Ascii Bool Lia Sorted.
Import ListNotations.
Open Scope Z_scope.

(** ** Wall clocks *)

Section Runtime.

(** The zone database and the zone of the running process. *)
Variable tzdata : string -> Z -> Z.
Variable localZone : string.

(** Milliseconds shown by the wall clock of [tz] at [date]. *)
Definition wallClock (tz : string) (date : Z) : Z :=
  date + tzdata tz date * 60000.

(** [getHourInTimezone]: [parseInt] of the hour formatted for [timezone]. *)
Definition getHourInTimezone (date : Z) (timezone : string) : Z :=
  (wallClock timezone date / 3600000) mod 24.

(** [getDayInTimezone]: 0 = Sunday .. 6 = Saturday; 1970-01-01 was a
    Thursday. *)
Definition getDayInTimezone (date : Z) (timezone : string) : Z :=
  (wallClock timezone date / 86400000 + 4) mod 7.

(** [getDateStringInTimezone]: the source formats the local calendar date
    as YYYY-MM-DD and only ever compares two such strings for equality; the
    date is represented by its day number since 1970-01-01, of which the
    string is an injective rendering. *)
Definition getDateStringInTimezone (date : Z) (timezone : string) : Z :=
  wallClock timezone date / 86400000.

(** [Date.prototype.getMinutes] and friends, on the process's clock. *)
Definition getMinutes (date : Z) : Z := (wallClock localZone date / 60000) mod 60.
Definition getSeconds (date : Z) : Z := (wallClock localZone date / 1000) mod 60.
Definition getMilliseconds (date : Z) : Z := wallClock localZone date mod 1000.

(** [date.setMinutes(min, sec, ms)]. *)
Definition setMinutes (date min sec ms : Z) : Z :=
  date - getMinutes date * 60 * 1000 - getSeconds date * 1000 - getMilliseconds date
  + min * 60 * 1000 + sec * 1000 + ms.

(** [setHourInTimezone]. *)
Definition setHourInTimezone (date hour : Z) (timezone : string) : Z :=
  let currentHour := getHourInTimezone date timezone in
  let hourDiff := hour - currentHour in
  let result := date + hourDiff * 60 * 60 * 1000 in
  let mins := getMinutes result in
  let secs := getSeconds result in
  let ms := getMilliseconds result in
  result - mins * 60 * 1000 - secs * 1000 - ms.

End Runtime.

(** ** A zone database of fixed offsets, for concrete scenarios *)

Definition fixedZones (name : string) (_ : Z) : Z :=
  if String.eqb name "Asia/Kolkata" then 330
  else if String.eqb name "Asia/Kathmandu" then 345
  else if String.eqb name "Asia/Tokyo" then 540
  else 0.

(** Days from 1970-01-01 to the civil date [y]-[m]-[d] (proleptic
    Gregorian). *)
Definition daysFromCivil (y m d : Z) : Z :=
  let y' := if m <=? 2 then y - 1 else y in
  let era := y' / 400 in
  let yoe := y' - era * 400 in
  let mp := if m >? 2 then m - 3 else m + 9 in
  let doy := (153 * mp + 2) / 5 + d - 1 in
  let doe := yoe * 365 + yoe / 4 - yoe / 100 + doy in
  era * 146097 + doe - 719468.

(** The instant y-m-dTh:mi:s.000 read on a clock [offset] minutes east of
    UTC. *)
Definition instantAt (offset y m d h mi s : Z) : Z :=
  daysFromCivil y m d * 86400000 + h * 3600000 + mi * 60000 + s * 1000
  - offset * 60000.

Definition utc := instantAt 0.
Definition ist := instantAt 330.

(** ** Busy periods and the overlap test *)

(** An element of [busyPeriods]: [{ start: Date; end: Date }]. *)
Record Period := { busy_start : Z; busy_end : Z }.

(** The arrow function given to [busyPeriods.some]. *)
Definition overlapsBusy (bufferedStart bufferedEnd : Z) (busy : Period) : bool :=
  ((bufferedStart >=? busy_start busy) && (bufferedStart <? busy_end busy))
  || ((bufferedEnd >? busy_start busy) && (bufferedEnd <=? busy_end busy))
  || ((bufferedStart <=? busy_start busy) && (bufferedEnd >=? busy_end busy)).

Definition isSlotFree (busyPeriods : list Period) (bufferedStart bufferedEnd : Z) : bool :=
  negb (existsb (overlapsBusy bufferedStart bufferedEnd) busyPeriods).

(** ** The slot scanner *)

(** [TimeSlot]: [{ start: Date; end: Date; available: boolean }]. *)
Record TimeSlot := { slot_start : Z; slot_end : Z; slot_available : bool }.

Inductive TimePreference := morning | afternoon | evening | any.

(** The [options] object of [calculateFreeSlotsAdvanced]; an absent field is
    [None]. *)
Record Options := {
  timePreference : option TimePreference;
  notBefore : option Z;
  notAfter : option Z;
  excludeDays : option (list Z);
  bufferBefore : option Z;
  bufferAfter : option Z;
  timezone : option string
}.

(** Options that only name the zone. *)
Definition inZone (tz : string) : option Options :=
  Some {| timePreference := None; notBefore := None; notAfter := None;
          excludeDays := None; bufferBefore := None; bufferAfter := None;
          timezone := Some tz |}.

(** [options?.field]. *)
Definition optField {A} (f : Options -> option A) (options : option Options) : option A :=
  match options with Some o => f o | None => None end.

(** [x ?? d]. *)
Definition nullish {A} (x : option A) (d : A) : A :=
  match x with Some v => v | None => d end.

(** [x || 0] on an optional number. *)
Definition orZero (x : option Z) : Z := nullish x 0.

(** [x || d] on an optional string: the empty string is falsy. *)
Definition orString (x : option string) (d : string) : string :=
  match x with
  | Some EmptyString => d
  | Some s => s
  | None => d
  end.

(** [getStartHourFromPreference]. *)
Definition getStartHourFromPreference (preference : option TimePreference) : Z :=
  match preference with
  | Some morning => 9
  | Some afternoon => 13
  | Some evening => 17
  | _ => 9
  end.

(** [busyPeriods.sort((a, b) => a.start.getTime() - b.start.getTime())]: a
    stable sort by start. *)
Fixpoint insertByStart (p : Period) (l : list Period) : list Period :=
  match l with
  | [] => [p]
  | q :: l' =>
      if busy_start p <=? busy_start q then p :: l else q :: insertByStart p l'
  end.

Definition sortByStart (l : list Period) : list Period :=
  fold_right insertByStart [] l.

(** [excludeDays?.includes(dayOfWeek)]. *)
Definition includesDay (days : option (list Z)) (dayOfWeek : Z) : bool :=
  match days with
  | Some l => existsb (Z.eqb dayOfWeek) l
  | None => false
  end.

(** The variables of the [while] loop.  [explored] is a ghost counter, absent
    from the source: the number of cursor positions that reached the test
    against the busy periods (and the 30-minute step that follows it). *)
Record ScanState := {
  currentTime : Z;
  freeSlots : list TimeSlot;
  explored : nat
}.

(** The constants [calculateFreeSlotsAdvanced] derives from [options]. *)

(** [(options?.bufferBefore || 0) * 60 * 1000]. *)
Definition bufferBeforeOf (options : option Options) : Z :=
  orZero (optField bufferBefore options) * 60 * 1000.

(** [(options?.bufferAfter || 0) * 60 * 1000]. *)
Definition bufferAfterOf (options : option Options) : Z :=
  orZero (optField bufferAfter options) * 60 * 1000.

(** [options?.timezone || 'Asia/Kolkata']. *)
Definition zoneOf (options : option Options) : string :=
  orString (optField timezone options) "Asia/Kolkata".

(** [options?.notBefore ?? this.getStartHourFromPreference(options?.timePreference)]. *)
Definition startHourOf (options : option Options) : Z :=
  nullish (optField notBefore options)
    (getStartHourFromPreference (optField timePreference options)).

(** [options?.notAfter ?? 18]. *)
Definition endHourOf (options : option Options) : Z :=
  nullish (optField notAfter options) 18.

(** [options?.notAfter !== undefined]. *)
Definition endHourGiven (options : option Options) : bool :=
  match optField notAfter options with Some _ => true | None => false end.

Section Scanner.

Variable tzdata : string -> Z -> Z.
Variable localZone : string.

Section Loop.

(** What the loop body reads and does not change. *)
Variable busyPeriods : list Period.
Variable endDate : Z.
Variables slotDuration bufferBeforeMs bufferAfterMs : Z.
Variables startHour endHour : Z.
Variable excluded : option (list Z).
Variables isSingleDaySearch userSpecifiedEndHour : bool.
Variable tz : string.

(** The closure [advanceToNextDay]. *)
Definition advanceToNextDay (cur : Z) : Z :=
  setHourInTimezone tzdata localZone (cur + 24 * 60 * 60 * 1000) startHour tz.

(** The loop condition. *)
Definition scanCond (st : ScanState) : bool :=
  (currentTime st <? endDate) && (List.length (freeSlots st) <? 10)%nat.

(** One run of the loop body. *)
Definition scanStep (st : ScanState) : ScanState :=
  let cur := currentTime st in
  let skip c := {| currentTime := c; freeSlots := freeSlots st;
                   explored := explored st |} in
  let dayOfWeek := getDayInTimezone tzdata cur tz in
  let hour := getHourInTimezone tzdata cur tz in
  if includesDay excluded dayOfWeek then skip (advanceToNextDay cur)
  else if negb isSingleDaySearch && ((dayOfWeek =? 0) || (dayOfWeek =? 6))
  then skip (advanceToNextDay cur)
  else if (hour <? startHour) || (hour >? endHour) then
    if hour >? endHour then skip (advanceToNextDay cur)
    else skip (setHourInTimezone tzdata localZone cur startHour tz)
  else
    let slotEnd := cur + slotDuration + bufferAfterMs in
    let slotEndHour := getHourInTimezone tzdata slotEnd tz in
    if negb userSpecifiedEndHour
       && ((slotEndHour >? endHour)
           || ((slotEndHour =? endHour)
               && (getMinutes tzdata localZone slotEnd >? 0)))
    then skip (advanceToNextDay cur)
    else
      let bufferedStart := cur - bufferBeforeMs in
      let bufferedEnd := cur + slotDuration + bufferAfterMs in
      {| currentTime := cur + 30 * 60 * 1000;
         freeSlots :=
           if isSlotFree busyPeriods bufferedStart bufferedEnd
           then freeSlots st ++ [ {| slot_start := cur;
                                     slot_end := cur + slotDuration;
                                     slot_available := true |} ]
           else freeSlots st;
         explored := S (explored st) |}.

(** [while (currentTime < endDate && freeSlots.length < 10) { ... }]. *)
Fixpoint scanLoop (fuel : nat) (st : ScanState) : option ScanState :=
  match fuel with
  | O => None
  | S fuel' =>
      if scanCond st then scanLoop fuel' (scanStep st) else Some st
  end.

End Loop.

(** [isSingleDaySearch]. *)
Definition singleDay (startDate endDate : Z) (tz : string) : bool :=
  let startDateStr := getDateStringInTimezone tzdata startDate tz in
  let endDateStr := getDateStringInTimezone tzdata endDate tz in
  (startDateStr =? endDateStr)
  || (endDate - startDate <? 24 * 60 * 60 * 1000).

(** The cursor before the loop: [startHour]:00 on the window's first day,
    moved to the present when the window starts today. *)
Definition initialCursor (now startDate startHour : Z) (tz : string) : Z :=
  let currentTime := setHourInTimezone tzdata localZone startDate startHour tz in
  let todayStr := getDateStringInTimezone tzdata now tz in
  let startDateStr := getDateStringInTimezone tzdata startDate tz in
  let isToday := todayStr =? startDateStr in
  if isToday && (now >? currentTime) then
    let currentTime := now in
    let minutes := getMinutes tzdata localZone currentTime in
    if (minutes >? 0) && (minutes <=? 30) then
      setMinutes tzdata localZone currentTime 30 0 0
    else if minutes >? 30 then
      setMinutes tzdata localZone
        (currentTime + (60 - minutes) * 60 * 1000) 0 0 0
    else currentTime
  else currentTime.

(** [calculateFreeSlotsAdvanced] up to the end of its loop. *)
Definition scanAdvanced (now : Z) (fuel : nat) (busyPeriods : list Period)
    (startDate endDate duration : Z) (options : option Options)
    : option ScanState :=
  let slotDuration := duration * 60 * 1000 in
  let bufferBeforeMs := bufferBeforeOf options in
  let bufferAfterMs := bufferAfterOf options in
  let tz := zoneOf options in
  let busyPeriods := sortByStart busyPeriods in
  let startHour := startHourOf options in
  let currentTime := initialCursor now startDate startHour tz in
  let endHour := endHourOf options in
  let isSingleDaySearch := singleDay startDate endDate tz in
  let userSpecifiedEndHour := endHourGiven options in
  scanLoop busyPeriods endDate slotDuration bufferBeforeMs bufferAfterMs
    startHour endHour (optField excludeDays options)
    isSingleDaySearch userSpecifiedEndHour tz fuel
    {| currentTime := currentTime; freeSlots := []; explored := O |}.

(** [calculateFreeSlotsAdvanced]: [return freeSlots.slice(0, 5)]. *)
Definition calculateFreeSlotsAdvanced (now : Z) (fuel : nat)
    (busyPeriods : list Period) (startDate endDate duration : Z)
    (options : option Options) : option (list TimeSlot) :=
  option_map (fun st => firstn 5 (freeSlots st))
    (scanAdvanced now fuel busyPeriods startDate endDate duration options).

End Scanner.

(** ** The calendar provider and the service methods that call it *)

(** What a rejected provider call carries: [error.response.status],
    [error.code] and the rendering of
    [error.response.data || error.message || error]. *)
Record ApiError := {
  err_status : option Z;
  err_code : option Z;
  err_details : string
}.

(** An awaited provider promise. *)
Inductive Promise (A : Type) : Type :=
| Fulfilled (a : A)
| Rejected (e : ApiError).
Arguments Fulfilled {A} a.
Arguments Rejected {A} e.

(** What can be thrown inside a method: the provider's rejection, or
    [new Error(message)]. *)
Inductive Exn : Type :=
| ProviderExn (e : ApiError)
| ErrorMsg (message : string).

(** How a call of a service method ends. *)
Inductive Completion (A : Type) : Type :=
| Returned (a : A)
| Thrown (e : Exn)
| Unfinished.
Arguments Returned {A} a.
Arguments Thrown {A} e.
Arguments Unfinished {A}.

Definition bind {A B} (c : Completion A) (k : A -> Completion B) : Completion B :=
  match c with
  | Returned a => k a
  | Thrown e => Thrown e
  | Unfinished => Unfinished
  end.

(** [await promise]. *)
Definition await {A} (p : Promise A) : Completion A :=
  match p with
  | Fulfilled a => Returned a
  | Rejected e => Thrown (ProviderExn e)
  end.

(** [try { body } catch (error) { handler }]. *)
Definition tryCatch {A} (body : Completion A) (handler : Exn -> Completion A)
  : Completion A :=
  match body with
  | Thrown e => handler e
  | c => c
  end.

Notation "x <- c ;; k" := (bind c (fun x => k))
  (at level 61, c at next level, right associativity).

(** The parameters of [calendar.events.list]. *)
Record ListRequest := {
  req_timeMin : Z;
  req_timeMax : Z;
  req_q : option string
}.

(** An item of [response.data.items]. *)
Record RawEvent := {
  raw_id : string;
  raw_summary : option string;
  raw_description : option string;
  raw_start : Z;
  raw_end : Z;
  raw_attendees : option (list string)
}.

(** [CalendarEvent]. *)
Record CalendarEvent := {
  ev_id : string;
  ev_title : option string;
  ev_description : option string;
  ev_start : Z;
  ev_end : Z;
  ev_attendees : list string
}.

(** The client [this.calendar], over the provider's state [W]. *)
Record CalendarApi (W : Type) := {
  events_list : ListRequest -> W -> Promise (option (list RawEvent));
  freebusy_query : Z -> Z -> W -> Promise (option (list Period));
  events_delete : string -> W -> Promise unit * W
}.
Arguments events_list {W} _ _ _.
Arguments freebusy_query {W} _ _ _ _.
Arguments events_delete {W} _ _ _.

Definition statusIs401 (error : Exn) : bool :=
  match error with
  | ProviderExn e =>
      match err_status e, err_code e with
      | Some 401, _ => true
      | _, Some 401 => true
      | _, _ => false
      end
  | ErrorMsg _ => false
  end.

Definition errorDetails (error : Exn) : string :=
  match error with
  | ProviderExn e => err_details e
  | ErrorMsg m => m
  end.

(** [events.sort((a, b) => b.end.getTime() - a.end.getTime())]: stable,
    latest end first. *)
Fixpoint insertByEndDesc (e : CalendarEvent) (l : list CalendarEvent)
  : list CalendarEvent :=
  match l with
  | [] => [e]
  | x :: l' =>
      if ev_end x <=? ev_end e then e :: l else x :: insertByEndDesc e l'
  end.

Definition sortByEndDesc (l : list CalendarEvent) : list CalendarEvent :=
  fold_right insertByEndDesc [] l.

Section Service.

Variable tzdata : string -> Z -> Z.
Variable localZone : string.
Variable W : Type.
Variable calendar : CalendarApi W.

(** [getEvents]. *)
Definition getEvents (w : W) (timeMin timeMax : Z) : Completion (list CalendarEvent) :=
  tryCatch
    (items <- await (events_list calendar
                       {| req_timeMin := timeMin; req_timeMax := timeMax;
                          req_q := None |} w) ;;
     Returned
       (map (fun event =>
               {| ev_id := raw_id event;
                  ev_title := raw_summary event;
                  ev_description := raw_description event;
                  ev_start := raw_start event;
                  ev_end := raw_end event;
                  ev_attendees := nullish (raw_attendees event) [] |})
            (nullish items [])))
    (fun error =>
       if statusIs401 error then
         Thrown (ErrorMsg
           "Calendar authentication expired. Please reconnect your Google account.")
       else
         Thrown (ErrorMsg
           (String.append "Failed to fetch calendar events: " (errorDetails error)))).

(** [searchEvents]. *)
Definition searchEvents (now : Z) (w : W) (query : string)
    (startDate endDate : option Z) : Completion (list CalendarEvent) :=
  tryCatch
    (let timeMin := nullish startDate now in
     let timeMax := nullish endDate (now + 30 * 24 * 60 * 60 * 1000) in
     items <- await (events_list calendar
                       {| req_timeMin := timeMin; req_timeMax := timeMax;
                          req_q := Some query |} w) ;;
     Returned
       (map (fun event =>
               {| ev_id := raw_id event;
                  ev_title := Some (orString (raw_summary event) EmptyString);
                  ev_description := raw_description event;
                  ev_start := raw_start event;
                  ev_end := raw_end event;
                  ev_attendees := nullish (raw_attendees event) [] |})
            (nullish items [])))
    (fun _ => Returned []).

(** [getLastMeetingOfDay]. *)
Definition getLastMeetingOfDay (w : W) (date : Z) (timezone : option string)
  : Completion (option CalendarEvent) :=
  let timezone := nullish timezone "Asia/Kolkata"%string in
  tryCatch
    (let startOfDay := setHourInTimezone tzdata localZone date 0 timezone in
     let endOfDay := setHourInTimezone tzdata localZone date 23 timezone in
     let endOfDayFull := endOfDay + 59 * 60 * 1000 + 59 * 1000 + 999 in
     events <- getEvents w startOfDay endOfDayFull ;;
     if (List.length events =? 0)%nat then Returned None
     else Returned (hd_error (sortByEndDesc events)))
    (fun _ => Returned None).

(** [findAvailableSlotsAdvanced]. *)
Definition findAvailableSlotsAdvanced (now : Z) (fuel : nat) (w : W)
    (duration startDate endDate : Z) (options : option Options)
  : Completion (list TimeSlot) :=
  tryCatch
    (busy <- await (freebusy_query calendar startDate endDate w) ;;
     let busyPeriods := nullish busy [] in
     match calculateFreeSlotsAdvanced tzdata localZone now fuel busyPeriods
             startDate endDate duration options with
     | Some freeSlots => Returned freeSlots
     | None => Unfinished
     end)
    (fun _ => Thrown (ErrorMsg "Failed to find available slots")).

(** [deleteMeeting]; the provider's state after the call comes with the
    completion. *)
Definition deleteMeeting (w : W) (eventId : string) : Completion unit * W :=
  let (response, w') := events_delete calendar eventId w in
  (tryCatch (_ <- await response ;; Returned tt)
            (fun _ => Thrown (ErrorMsg "Failed to delete meeting")),
   w').

End Service.

(** ** An in-memory provider, for concrete scenarios *)

(** Its state: the events it holds, the ids it has deleted, whether it can be
    reached, and the busy periods it reports. *)
Record MemWorld := {
  mem_events : list RawEvent;
  mem_deleted : list string;
  mem_reachable : bool;
  mem_busy : list Period
}.

Definition unreachable : ApiError :=
  {| err_status := None; err_code := None; err_details := "ENOTFOUND" |}.

Definition notFound : ApiError :=
  {| err_status := Some 404; err_code := Some 404; err_details := "Not Found" |}.

Definition gone : ApiError :=
  {| err_status := Some 410; err_code := Some 410;
     err_details := "Resource has been deleted" |}.

Definition hasId (eventId : string) (e : RawEvent) : bool :=
  String.eqb (raw_id e) eventId.

Definition memCalendar : CalendarApi MemWorld :=
  {| events_list := fun req w =>
       if mem_reachable w then
         Fulfilled (Some (filter (fun e => (req_timeMin req <? raw_end e)
                                           && (raw_start e <? req_timeMax req))
                                 (mem_events w)))
       else Rejected unreachable;
     freebusy_query := fun timeMin timeMax w =>
       if mem_reachable w then Fulfilled (Some (mem_busy w))
       else Rejected unreachable;
     events_delete := fun eventId w =>
       if mem_reachable w then
         if existsb (hasId eventId) (mem_events w) then
           (Fulfilled tt,
            {| mem_events := filter (fun e => negb (hasId eventId e)) (mem_events w);
               mem_deleted := eventId :: mem_deleted w;
               mem_reachable := true;
               mem_busy := mem_busy w |})
         else if existsb (String.eqb eventId) (mem_deleted w) then
           (Rejected gone, w)
         else (Rejected notFound, w)
       else (Rejected unreachable, w) |}.

(** ** Creating, updating and finding through the service *)

(** [MeetingInput]. *)
Record MeetingInput := {
  m_title : string;
  m_description : option string;
  m_startTime : Z;
  m_duration : Z;
  m_attendees : option (list string);
  m_timeZone : option string
}.

(** [Partial<MeetingInput>]. *)
Record MeetingUpdates := {
  u_title : option string;
  u_description : option string;
  u_startTime : option Z;
  u_duration : option Z;
  u_attendees : option (list string);
  u_timeZone : option string
}.

(** [{ dateTime: date.toISOString(), timeZone }]; the ISO string is
    represented by the instant it renders. *)
Record EventTime := { dateTime : Z; timeZone : string }.

(** The [requestBody] of [calendar.events.insert], with the request's
    [conferenceDataVersion] and [sendUpdates]. *)
Record InsertRequest := {
  ins_summary : string;
  ins_description : option string;
  ins_start : EventTime;
  ins_end : EventTime;
  ins_attendees : option (list string);
  ins_remindersUseDefault : bool;
  ins_conferenceRequestId : string;
  ins_conferenceSolution : string;
  ins_conferenceDataVersion : Z;
  ins_sendUpdates : string
}.

(** The [requestBody] of [calendar.events.patch]: [updateData]. *)
Record PatchBody := {
  p_summary : option string;
  p_description : option string;
  p_start : option EventTime;
  p_end : option EventTime
}.

(** The writing half of the client [this.calendar]. *)
Record CalendarWriteApi (W : Type) := {
  events_insert : InsertRequest -> W -> Promise string * W;
  events_patch : string -> PatchBody -> W -> Promise unit * W
}.
Arguments events_insert {W} _ _ _.
Arguments events_patch {W} _ _ _ _.

(** A string in a condition: absent and empty are falsy. *)
Definition truthyString (x : option string) : option string :=
  match x with
  | Some EmptyString => None
  | other => other
  end.

(** The body [createMeeting] submits; [requestId] is the value of
    [crypto.randomUUID()]. *)
Definition createMeetingBody (requestId : string) (meeting : MeetingInput)
  : InsertRequest :=
  let endTime := m_startTime meeting + m_duration meeting * 60000 in
  {| ins_summary := m_title meeting;
     ins_description := m_description meeting;
     ins_start := {| dateTime := m_startTime meeting;
                     timeZone := orString (m_timeZone meeting) "Asia/Kolkata" |};
     ins_end := {| dateTime := endTime;
                   timeZone := orString (m_timeZone meeting) "Asia/Kolkata" |};
     ins_attendees := m_attendees meeting;
     ins_remindersUseDefault := true;
     ins_conferenceRequestId := requestId;
     ins_conferenceSolution := "hangoutsMeet";
     ins_conferenceDataVersion := 1;
     ins_sendUpdates := "all" |}.

(** The [updateData] that [updateMeeting] builds. *)
Definition updateMeetingBody (updates : MeetingUpdates) : PatchBody :=
  let times :=
    match u_startTime updates, u_duration updates with
    | Some startTime, Some duration =>
        if duration =? 0 then None
        else
          let endTime := startTime + duration * 60000 in
          Some ({| dateTime := startTime;
                   timeZone := orString (u_timeZone updates) "Asia/Kolkata" |},
                {| dateTime := endTime;
                   timeZone := orString (u_timeZone updates) "Asia/Kolkata" |})
    | _, _ => None
    end in
  {| p_summary := truthyString (u_title updates);
     p_description := truthyString (u_description updates);
     p_start := option_map fst times;
     p_end := option_map snd times |}.

Section ServiceWrites.

Variable tzdata : string -> Z -> Z.
Variable localZone : string.
Variable W : Type.
Variable calendar : CalendarApi W.
Variable writer : CalendarWriteApi W.

(** [createMeeting]. *)
Definition createMeeting (requestId : string) (w : W) (meeting : MeetingInput)
  : Completion string * W :=
  let (response, w') :=
    events_insert writer (createMeetingBody requestId meeting) w in
  (tryCatch (event_id <- await response ;; Returned event_id)
            (fun _ => Thrown (ErrorMsg "Failed to create meeting")),
   w').

(** [updateMeeting]. *)
Definition updateMeeting (w : W) (eventId : string) (updates : MeetingUpdates)
  : Completion unit * W :=
  let (response, w') :=
    events_patch writer eventId (updateMeetingBody updates) w in
  (tryCatch (_ <- await response ;; Returned tt)
            (fun _ => Thrown (ErrorMsg "Failed to update meeting")),
   w').


End ServiceWrites.

(** A writer that refuses every call, for concrete scenarios. *)
Definition refusingWriter : CalendarWriteApi unit :=
  {| events_insert := fun _ w => (Rejected unreachable, w);
     events_patch := fun _ _ w => (Rejected unreachable, w) |}.

(** A meeting of 45 minutes. *)
Definition review : MeetingInput :=
  {| m_title := "Review"; m_description := None;
     m_startTime := utc 2024 2 6 9 0 0; m_duration := 45;
     m_attendees := None; m_timeZone := None |}.

(** The event conversion of [getEvents]. *)
Definition toCalendarEvent (event : RawEvent) : CalendarEvent :=
  {| ev_id := raw_id event;
     ev_title := raw_summary event;
     ev_description := raw_description event;
     ev_start := raw_start event;
     ev_end := raw_end event;
     ev_attendees := nullish (raw_attendees event) [] |}.

(** ** Day boundaries of the routes, week ranges of the agent *)

Section ProcessClock.

Variable tzdata : string -> Z -> Z.
Variable localZone : string.

(** [date.getDay()] and [date.getHours()], on the process's clock. *)
Definition getDay (date : Z) : Z := getDayInTimezone tzdata date localZone.
Definition getHours (date : Z) : Z := getHourInTimezone tzdata date localZone.

(** [date.toDateString()], which the source only compares for equality:
    the day number of the process's local date. *)
Definition toDateString (date : Z) : Z :=
  getDateStringInTimezone tzdata date localZone.

(** [date.setDate(date.getDate() + days)], between instants at which the
    process's zone has one offset. *)
Definition addDays (date days : Z) : Z := date + days * 86400000.

(** [date.setHours(hours, minutes, 0, 0)], under the same proviso. *)
Definition setHours (date hours minutes : Z) : Z :=
  date - wallClock tzdata localZone date mod 86400000
  + hours * 3600000 + minutes * 60000.

(** [getStartOfDayInTimezone] of the api routes.  The date string is split
    into year, month and day, which [Date.UTC] turns into midnight UTC of
    the day the string names (years from 100 on). *)
Definition getStartOfDayInTimezone (date : Z) (timezone : string) : Z :=
  let dateStr := getDateStringInTimezone tzdata date timezone in
  let utcMidnight := dateStr * 86400000 in
  let hourInTz := getHourInTimezone tzdata utcMidnight timezone in
  let offsetHours :=
    if hourInTz =? 0 then 0
    else if hourInTz >? 12 then hourInTz - 24 else hourInTz in
  utcMidnight - offsetHours * 60 * 60 * 1000.

(** [getEndOfDayInTimezone]. *)
Definition getEndOfDayInTimezone (date : Z) (timezone : string) : Z :=
  let startOfDay := getStartOfDayInTimezone date timezone in
  startOfDay + 24 * 60 * 60 * 1000 - 1.

(** [getNextWeekRange] of the agent: the two dates it formats, as day
    numbers of [timezone]. *)
Definition getNextWeekRange (today : Z) (timezone : string) : Z * Z :=
  let dayOfWeek := getDay today in
  let daysUntilMonday := if dayOfWeek =? 0 then 1 else 8 - dayOfWeek in
  let nextMonday := addDays today daysUntilMonday in
  let nextSunday := addDays nextMonday 6 in
  (getDateStringInTimezone tzdata nextMonday timezone,
   getDateStringInTimezone tzdata nextSunday timezone).

(** [getThisWeekRange]. *)
Definition getThisWeekRange (today : Z) (timezone : string) : Z * Z :=
  let dayOfWeek := getDay today in
  let startOfWeek := addDays today (- dayOfWeek) in
  let endOfWeek := addDays startOfWeek 6 in
  (getDateStringInTimezone tzdata startOfWeek timezone,
   getDateStringInTimezone tzdata endOfWeek timezone).

(** [isToday] and [isTomorrow] of the web utilities; [timezone] is what
    [getUserTimezone()] returns and [date] the instant of [dateStr]. *)
Definition isToday (timezone : string) (now date : Z) : bool :=
  getDateStringInTimezone tzdata date timezone
  =? getDateStringInTimezone tzdata now timezone.


End ProcessClock.

(** ** The time parser of the agent *)

(** [s.includes(pat)]. *)
Fixpoint includes (s pat : string) : bool :=
  String.prefix pat s
  || match s with
     | EmptyString => false
     | String _ s' => includes s' pat
     end.

(** [text.toLowerCase()] on texts of ASCII characters; other bytes are
    kept. *)
Definition lowerChar (c : ascii) : ascii :=
  let n := nat_of_ascii c in
  if ((65 <=? n) && (n <=? 90))%nat then ascii_of_nat (n + 32) else c.

Fixpoint toLowerCase (s : string) : string :=
  match s with
  | EmptyString => EmptyString
  | String c s' => String (lowerChar c) (toLowerCase s')
  end.

(** [detectTimePreference]. *)
Definition detectTimePreference (text : string) : TimePreference :=
  let lowerText := toLowerCase text in
  if includes lowerText "morning"
     || includes lowerText "a.m."
     || includes lowerText "am"
  then morning
  else if includes lowerText "afternoon"
          || includes lowerText "lunch"
          || includes lowerText "midday"
  then afternoon
  else if includes lowerText "evening"
          || includes lowerText "night"
          || includes lowerText "p.m."
          || includes lowerText "pm"
  then evening
  else any.

(** What is read of a result of [chrono.parse]: [result.start.date()] and
    [result.end?.date()]. *)
Record ChronoResult := { chrono_start : Z; chrono_end : option Z }.

(** [ParsedTimeRange]. *)
Record ParsedTimeRange := {
  range_startDate : Z;
  range_endDate : Z;
  range_timePreference : TimePreference
}.

Section TimeParser.

Variable tzdata : string -> Z -> Z.
Variable localZone : string.

(** [chrono.parse(text, referenceDate, { forwardDate: true })], a library
    outside the repository. *)
Variable chrono : string -> Z -> list ChronoResult.

(** [setTimeOfDay]. *)
Definition setTimeOfDay (date hours minutes : Z) : Z :=
  setHours tzdata localZone date hours minutes.

(** [parseTimeExpression]. *)
Definition parseTimeExpression (text : string) (referenceDate : Z)
  : option ParsedTimeRange :=
  match chrono text referenceDate with
  | [] => None
  | result :: _ =>
      let startDate := chrono_start result in
      let endDate := nullish (chrono_end result) startDate in
      let timePreference := detectTimePreference text in
      let adjusted :=
        match timePreference with
        | morning =>
            let startDate := setTimeOfDay startDate 9 0 in
            (startDate, setTimeOfDay startDate 12 0)
        | afternoon =>
            let startDate := setTimeOfDay startDate 13 0 in
            (startDate, setTimeOfDay startDate 17 0)
        | evening =>
            let startDate := setTimeOfDay startDate 17 0 in
            (startDate, setTimeOfDay startDate 21 0)
        | any =>
            let startDate := setTimeOfDay startDate 9 0 in
            (startDate, setTimeOfDay startDate 17 0)
        end in
      let startDate := fst adjusted in
      let endDate := snd adjusted in
      let endDate :=
        if includes text "late" && includes text "week" then
          let endOfWeek :=
            addDays startDate (5 - getDay tzdata localZone startDate) in
          endOfWeek
        else endDate in
      let week :=
        if includes text "sometime" && includes text "week" then
          let startOfWeek :=
            addDays startDate (- getDay tzdata localZone startDate + 1) in
          let endOfWeek := addDays startOfWeek 4 in
          (startOfWeek, endOfWeek)
        else (startDate, endDate) in
      Some {| range_startDate := fst week;
              range_endDate := snd week;
              range_timePreference := timePreference |}
  end.

End TimeParser.

(** ** The scanner on the process's clock, [calculateFreeSlots] *)

Section Legacy.

Variable tzdata : string -> Z -> Z.
Variable localZone : string.

(** [applyTimePreference]. *)
Definition applyTimePreference (date : Z) (preference : option TimePreference)
  : Z :=
  match preference with
  | Some morning => setHours tzdata localZone date 9 0
  | Some afternoon => setHours tzdata localZone date 13 0
  | Some evening => setHours tzdata localZone date 17 0
  | _ => setHours tzdata localZone date 9 0
  end.

(** [isWithinWorkingHours]. *)
Definition isWithinWorkingHours (date : Z) (allowWeekends : bool) : bool :=
  let hours := getHours tzdata localZone date in
  let day := getDay tzdata localZone date in
  let withinHours := (hours >=? 9) && (hours <? 18) in
  let validDay := allowWeekends || ((day >=? 1) && (day <=? 5)) in
  validDay && withinHours.

(** One run of the body of the loop of [calculateFreeSlots]; [explored]
    counts the runs. *)
Definition legacyStep (busyPeriods : list Period) (slotDuration : Z)
    (preference : option TimePreference) (isSingleDaySearch : bool)
    (st : ScanState) : ScanState :=
  let cur := currentTime st in
  let slotEnd := cur + slotDuration in
  let found :=
    if isSlotFree busyPeriods cur slotEnd
       && isWithinWorkingHours cur isSingleDaySearch
    then freeSlots st ++ [ {| slot_start := cur; slot_end := slotEnd;
                              slot_available := true |} ]
    else freeSlots st in
  let next := cur + 30 * 60 * 1000 in
  let next :=
    if getHours tzdata localZone next >=? 18
    then applyTimePreference (addDays next 1) preference
    else next in
  {| currentTime := next; freeSlots := found; explored := S (explored st) |}.

(** [while (currentTime < endDate && freeSlots.length < 10) { ... }]. *)
Fixpoint legacyLoop (busyPeriods : list Period) (endDate slotDuration : Z)
    (preference : option TimePreference) (isSingleDaySearch : bool)
    (fuel : nat) (st : ScanState) : option ScanState :=
  match fuel with
  | O => None
  | S fuel' =>
      if scanCond endDate st
      then legacyLoop busyPeriods endDate slotDuration preference
             isSingleDaySearch fuel'
             (legacyStep busyPeriods slotDuration preference
                isSingleDaySearch st)
      else Some st
  end.

(** The cursor of [calculateFreeSlots] before its loop. *)
Definition legacyCursor (now startDate : Z) (preference : option TimePreference)
  : Z :=
  let currentTime := applyTimePreference startDate preference in
  let isToday :=
    toDateString tzdata localZone startDate =? toDateString tzdata localZone now in
  if isToday && (now >? currentTime) then
    let currentTime := now in
    let minutes := getMinutes tzdata localZone currentTime in
    if (minutes >? 0) && (minutes <=? 30) then
      setMinutes tzdata localZone currentTime 30 0 0
    else if minutes >? 30 then
      setHours tzdata localZone currentTime
        (getHours tzdata localZone currentTime + 1) 0
    else currentTime
  else currentTime.

(** [calculateFreeSlots]. *)
Definition calculateFreeSlots (now : Z) (fuel : nat) (busyPeriods : list Period)
    (startDate endDate duration : Z) (preference : option TimePreference)
  : option (list TimeSlot) :=
  let slotDuration := duration * 60 * 1000 in
  let isSingleDaySearch :=
    (toDateString tzdata localZone startDate
     =? toDateString tzdata localZone endDate)
    || (endDate - startDate <? 24 * 60 * 60 * 1000) in
  let busyPeriods := sortByStart busyPeriods in
  let currentTime := legacyCursor now startDate preference in
  option_map (fun st => firstn 5 (freeSlots st))
    (legacyLoop busyPeriods endDate slotDuration preference isSingleDaySearch
       fuel {| currentTime := currentTime; freeSlots := []; explored := O |}).

End Legacy.

(** [detectRequiresUserInput] of the agent. *)
Definition questionPatterns : list string :=
  [ "?"; "which"; "what"; "when"; "where"; "who"; "how"; "would you";
    "prefer"; "like" ]%string.

Definition detectRequiresUserInput (message : string) : bool :=
  existsb (fun pattern => includes (toLowerCase message) pattern)
    questionPatterns.


(** ** The availability check of the voice tools route *)

Section VoiceRoute.

Variable tzdata : string -> Z -> Z.
Variable localZone : string.
Variable W : Type.
Variable calendar : CalendarApi W.

(** [new Date(date)] for a date that is neither "today" nor "tomorrow". *)
Variable parseDate : string -> Z.




End VoiceRoute.

(** ** Properties of slots and cursors, used in the statements below *)

(** The hour at which a slot starts lies in the allowed range. *)
Definition startWithinHours (tzdata : string -> Z -> Z) (startHour endHour : Z)
    (tz : string) (cur : Z) : Prop :=
  startHour <= getHourInTimezone tzdata cur tz <= endHour.

(** What the scanner checks of a slot's buffered end: its hour in the zone
    does not exceed [endHour], and at that hour the minutes read by
    [getMinutes] are zero. *)
Definition endWithinHours (tzdata : string -> Z -> Z) (localZone : string)
    (endHour : Z) (tz : string) (slotEnd : Z) : Prop :=
  getHourInTimezone tzdata slotEnd tz <= endHour
  /\ (getHourInTimezone tzdata slotEnd tz = endHour ->
      getMinutes tzdata localZone slotEnd = 0).

(** The minutes of the wall clock in the zone [tz]. *)
Definition minutesInZone (tzdata : string -> Z -> Z) (tz : string) (date : Z) : Z :=
  (wallClock tzdata tz date / 60000) mod 60.

(** The first instant strictly after [now] at which the wall clock of [tz]
    shows a full or a half hour. *)
Definition nextHalfHour (tzdata : string -> Z -> Z) (tz : string) (now : Z) : Z :=
  (wallClock tzdata tz now / 1800000 + 1) * 1800000 - tzdata tz now * 60000.

(** Two slots in the order found, at least thirty minutes apart. *)
Definition halfHourApart (a b : TimeSlot) : Prop :=
  slot_start a + 1800000 <= slot_start b.

(** Two slots whose half-open intervals do not meet. *)
Definition disjointSlots (a b : TimeSlot) : Prop :=
  slot_end a <= slot_start b \/ slot_end b <= slot_start a.

(** ** Invariants of the loop of the scanner *)

Section Invariants.

Variable tzdata : string -> Z -> Z.
Variable localZone : string.
Variable busyPeriods : list Period.
Variable endDate : Z.
Variables slotDuration bufferBeforeMs bufferAfterMs : Z.
Variables startHour endHour : Z.
Variable userSpecifiedEndHour : bool.
Variable tz : string.

(** What holds of the collected slots whatever the options. *)
Definition slotsChecked (st : ScanState) : Prop :=
((List.length (freeSlots st) <= 10)%nat
   /\ (List.length (freeSlots st) <= explored st)%nat)
  /\ Forall (fun s =>
       slot_start s < endDate
       /\ slot_end s = slot_start s + slotDuration
       /\ startWithinHours tzdata startHour endHour tz (slot_start s)
       /\ (userSpecifiedEndHour = false ->
           endWithinHours tzdata localZone endHour tz
             (slot_start s + slotDuration + bufferAfterMs))
       /\ isSlotFree busyPeriods (slot_start s - bufferBeforeMs)
            (slot_start s + slotDuration + bufferAfterMs) = true)
     (freeSlots st).

(** What holds of them when the start hour is not negative: they are in the
    order of the clock, thirty minutes apart or more, behind the cursor and
    not before the cursor the loop started from. *)
Definition slotsOrdered (cur0 : Z) (st : ScanState) : Prop :=
  cur0 <= currentTime st
  /\ Forall (fun s => cur0 <= slot_start s
                      /\ slot_start s + 1800000 <= currentTime st)
       (freeSlots st)
  /\ StronglySorted halfHourApart (freeSlots st).

End Invariants.

(** ** Lemmas on the wall clock *)

Lemma subhour_decompose (x : Z) :
  (x / 60000) mod 60 * 60000 + (x / 1000) mod 60 * 1000 + x mod 1000
  = x mod 3600000.
Proof.
  assert (H1 := Z.div_mod x 1000 ltac:(lia)).
  assert (B1 := Z.mod_pos_bound x 1000 ltac:(lia)).
  assert (H2 := Z.div_mod (x / 1000) 60 ltac:(lia)).
  assert (B2 := Z.mod_pos_bound (x / 1000) 60 ltac:(lia)).
  assert (E : x / 60000 = x / 1000 / 60) by (rewrite Z.div_div by lia; reflexivity).
  rewrite E.
  assert (H3 := Z.div_mod (x / 1000 / 60) 60 ltac:(lia)).
  assert (B3 := Z.mod_pos_bound (x / 1000 / 60) 60 ltac:(lia)).
  apply Z.mod_unique with (q := x / 1000 / 60 / 60); lia.
Qed.

Section RuntimeFacts.

Variable tzdata : string -> Z -> Z.
Variable localZone : string.

Lemma getHourInTimezone_range date tz :
  0 <= getHourInTimezone tzdata date tz < 24.
Proof. unfold getHourInTimezone. apply Z.mod_pos_bound. lia. Qed.

Lemma getMinutes_range date : 0 <= getMinutes tzdata localZone date < 60.
Proof. unfold getMinutes. apply Z.mod_pos_bound. lia. Qed.

(** What [setHourInTimezone] and [setMinutes] subtract is the part of the
    process's wall clock below the hour. *)
Lemma subhour_local date :
  getMinutes tzdata localZone date * 60 * 1000
  + getSeconds tzdata localZone date * 1000
  + getMilliseconds tzdata localZone date
  = wallClock tzdata localZone date mod 3600000.
Proof.
  unfold getMinutes, getSeconds, getMilliseconds.
  rewrite <- subhour_decompose. lia.
Qed.

Lemma subhour_local_range date :
  0 <= getMinutes tzdata localZone date * 60 * 1000
       + getSeconds tzdata localZone date * 1000
       + getMilliseconds tzdata localZone date < 3600000.
Proof. rewrite subhour_local. apply Z.mod_pos_bound. lia. Qed.

Lemma setHourInTimezone_eq date hour tz :
  setHourInTimezone tzdata localZone date hour tz
  = date + (hour - getHourInTimezone tzdata date tz) * 3600000
    - wallClock tzdata localZone
        (date + (hour - getHourInTimezone tzdata date tz) * 3600000)
      mod 3600000.
Proof.
  unfold setHourInTimezone. cbv zeta.
  replace ((hour - getHourInTimezone tzdata date tz) * 60 * 60 * 1000)
    with ((hour - getHourInTimezone tzdata date tz) * 3600000) by lia.
  rewrite <- subhour_local. lia.
Qed.

(** Moving to a later hour moves forward in time, whatever the zones. *)
Lemma setHourInTimezone_later date hour tz :
  getHourInTimezone tzdata date tz < hour ->
  date < setHourInTimezone tzdata localZone date hour tz.
Proof.
  intros H. rewrite setHourInTimezone_eq.
  match goal with |- _ < _ - ?m mod _ =>
    assert (B := Z.mod_pos_bound m 3600000 ltac:(lia)) end.
  lia.
Qed.

(** When the process's clock and the zone's clock differ by whole hours and
    the zone keeps its offset, [setHourInTimezone] lands on [hour]:00:00.000
    of the same local date. *)
Lemma setHourInTimezone_aligned date hour tz off :
  tzdata tz date = off ->
  (tzdata localZone (date + (hour - getHourInTimezone tzdata date tz) * 3600000)
   - off) mod 60 = 0 ->
  setHourInTimezone tzdata localZone date hour tz + off * 60000
  = (date + off * 60000) / 86400000 * 86400000 + hour * 3600000.
Proof.
  intros Hoff Hal. rewrite setHourInTimezone_eq.
  unfold getHourInTimezone in *. unfold wallClock in *. rewrite Hoff in *.
  set (w := date + off * 60000) in *.
  set (r := date + (hour - (w / 3600000) mod 24) * 3600000) in *.
  apply Z.mod_divide in Hal; [|lia]. destruct Hal as [k Hk].
  assert (Hr : r + tzdata localZone r * 60000
               = w + (hour - (w / 3600000) mod 24 + k) * 3600000).
  { assert (Hl : tzdata localZone r = off + k * 60) by lia.
    rewrite Hl. unfold r, w. lia. }
  rewrite Hr, Z.mod_add by lia.
  assert (E : w / 86400000 = w / 3600000 / 24)
    by (rewrite Z.div_div by lia; reflexivity).
  rewrite E.
  assert (H1 := Z.div_mod w 3600000 ltac:(lia)).
  assert (H2 := Z.div_mod (w / 3600000) 24 ltac:(lia)).
  unfold r. fold w. lia.
Qed.

End RuntimeFacts.


(** ** The overlap test *)

Lemma overlapsBusy_iff s e busy :
  s < e -> busy_start busy < busy_end busy ->
  overlapsBusy s e busy = true <-> s < busy_end busy /\ e > busy_start busy.
Proof.
  intros Hse Hb. unfold overlapsBusy.
  rewrite !orb_true_iff, !andb_true_iff.
  rewrite !Z.geb_le, !Z.gtb_lt, !Z.ltb_lt, !Z.leb_le. lia.
Qed.

Lemma isSlotFree_iff busyPeriods s e :
  isSlotFree busyPeriods s e = true
  <-> forall busy, In busy busyPeriods -> overlapsBusy s e busy = false.
Proof.
  unfold isSlotFree. rewrite negb_true_iff. split.
  - intros H busy Hin. destruct (overlapsBusy s e busy) eqn:E; [|reflexivity].
    assert (X : existsb (overlapsBusy s e) busyPeriods = true)
      by (apply existsb_exists; eauto).
    congruence.
  - intros H. destruct (existsb (overlapsBusy s e) busyPeriods) eqn:E; [|reflexivity].
    apply existsb_exists in E. destruct E as [b [Hin Hb]].
    rewrite (H b Hin) in Hb. discriminate.
Qed.

(** C2: for a buffered candidate [s, e) with s < e and busy periods [bs, be)
    with bs < be, the three-case test of the scanner holds exactly when
    s < be and e > bs; so a candidate ending where a busy period starts, or
    starting where one ends, does not conflict with it, a candidate sharing
    an instant with a busy period does, and the candidate is free exactly
    when it meets no busy period in that half-open sense. *)
Theorem overlap_test_is_half_open_intersection :
  forall (busyPeriods : list Period) (s e : Z),
    s < e ->
    Forall (fun busy => busy_start busy < busy_end busy) busyPeriods ->
    (forall busy, In busy busyPeriods ->
       (overlapsBusy s e busy = true <-> s < busy_end busy /\ e > busy_start busy)
       /\ (e = busy_start busy -> overlapsBusy s e busy = false)
       /\ (s = busy_end busy -> overlapsBusy s e busy = false)
       /\ (Z.max s (busy_start busy) < Z.min e (busy_end busy) ->
           overlapsBusy s e busy = true
           /\ isSlotFree busyPeriods s e = false))
    /\ (isSlotFree busyPeriods s e = true
        <-> forall busy, In busy busyPeriods ->
              e <= busy_start busy \/ busy_end busy <= s).
Proof.
  intros busyPeriods s e Hse Hwf. rewrite Forall_forall in Hwf. split.
  - intros busy Hin. pose proof (Hwf busy Hin) as Hb.
    split; [exact (overlapsBusy_iff s e busy Hse Hb)|]. split; [|split].
    + intros He. destruct (overlapsBusy s e busy) eqn:E; [|reflexivity].
      apply (overlapsBusy_iff s e busy Hse Hb) in E. lia.
    + intros Hs. destruct (overlapsBusy s e busy) eqn:E; [|reflexivity].
      apply (overlapsBusy_iff s e busy Hse Hb) in E. lia.
    + intros Hm. assert (Ho : overlapsBusy s e busy = true)
        by (apply (overlapsBusy_iff s e busy Hse Hb); lia).
      split; [exact Ho|].
      destruct (isSlotFree busyPeriods s e) eqn:E; [|reflexivity].
      rewrite isSlotFree_iff in E. rewrite (E busy Hin) in Ho. discriminate.
  - rewrite isSlotFree_iff. split; intros H busy Hin.
    + pose proof (Hwf busy Hin) as Hb. specialize (H busy Hin).
      destruct (Z_le_gt_dec e (busy_start busy)); [left; assumption|].
      destruct (Z_le_gt_dec (busy_end busy) s); [right; assumption|].
      assert (Ho : overlapsBusy s e busy = true)
        by (apply overlapsBusy_iff; [assumption|assumption|lia]).
      congruence.
    + pose proof (Hwf busy Hin) as Hb.
      destruct (overlapsBusy s e busy) eqn:E; [|reflexivity].
      apply overlapsBusy_iff in E; [|assumption|assumption].
      specialize (H busy Hin). lia.
Qed.

(** A candidate 09:30-10:00 against a busy 10:00-11:00. *)
Lemma overlap_test_witness :
  (forall busy, In busy [ {| busy_start := 600; busy_end := 660 |} ] ->
     (overlapsBusy 570 600 busy = true <-> 570 < busy_end busy /\ 600 > busy_start busy)
     /\ (600 = busy_start busy -> overlapsBusy 570 600 busy = false)
     /\ (570 = busy_end busy -> overlapsBusy 570 600 busy = false)
     /\ (Z.max 570 (busy_start busy) < Z.min 600 (busy_end busy) ->
         overlapsBusy 570 600 busy = true
         /\ isSlotFree [ {| busy_start := 600; busy_end := 660 |} ] 570 600 = false))
  /\ (isSlotFree [ {| busy_start := 600; busy_end := 660 |} ] 570 600 = true
      <-> forall busy, In busy [ {| busy_start := 600; busy_end := 660 |} ] ->
            600 <= busy_start busy \/ busy_end busy <= 570).
Proof.
  apply (overlap_test_is_half_open_intersection
           [ {| busy_start := 600; busy_end := 660 |} ] 570 600).
  - lia.
  - constructor; [simpl; lia | constructor].
Defined.

(** ** [setHourInTimezone] under a process clock off the zone's by half an hour *)

(** C1: with the process running in UTC, [setHourInTimezone] asked for 09:00
    in Asia/Kolkata at 2024-02-06T10:15 local (04:45 UTC) returns 03:00 UTC,
    that is 08:30 local, and not 03:30 UTC: the minutes it clears are those
    of the process's clock. *)
Theorem setHourInTimezone_process_utc_zone_kolkata :
  setHourInTimezone fixedZones "UTC" (utc 2024 2 6 4 45 0) 9 "Asia/Kolkata"
  = utc 2024 2 6 3 0 0
  /\ utc 2024 2 6 3 0 0 = ist 2024 2 6 8 30 0
  /\ utc 2024 2 6 3 0 0 <> ist 2024 2 6 9 0 0
  /\ ist 2024 2 6 9 0 0 = utc 2024 2 6 3 30 0
  /\ getDateStringInTimezone fixedZones (utc 2024 2 6 4 45 0) "Asia/Kolkata"
     = daysFromCivil 2024 2 6.
Proof. vm_compute. repeat split; congruence. Qed.

(** ** The loop of the scanner *)

Lemma StronglySorted_snoc {A} (R : A -> A -> Prop) (l : list A) (x : A) :
  StronglySorted R l -> Forall (fun a => R a x) l -> StronglySorted R (l ++ [x]).
Proof.
  induction 1 as [|a l Hs IH Ha]; intros Hx; simpl.
  - constructor; constructor.
  - inversion Hx; subst. constructor.
    + apply IH. assumption.
    + apply Forall_app. split; [assumption|]. constructor; [assumption|constructor].
Qed.

Lemma In_firstn_In {A} (n : nat) (l : list A) (x : A) :
  In x (firstn n l) -> In x l.
Proof.
  revert l. induction n as [|n IH]; intros [|a l]; simpl; try tauto.
  intros [H|H]; [left; assumption | right; apply IH; assumption].
Qed.

Lemma StronglySorted_firstn {A} (R : A -> A -> Prop) (n : nat) (l : list A) :
  StronglySorted R l -> StronglySorted R (firstn n l).
Proof.
  intros H. revert n. induction H as [|a l Hs IH Ha]; intros [|n]; simpl;
    try constructor.
  - apply IH.
  - rewrite Forall_forall in *. intros x Hx. apply Ha.
    eapply In_firstn_In; eassumption.
Qed.

Lemma StronglySorted_weaken {A} (R S : A -> A -> Prop) (l : list A) :
  (forall a b, In a l -> In b l -> R a b -> S a b) ->
  StronglySorted R l -> StronglySorted S l.
Proof.
  intros HRS H. induction H as [|a l Hs IH Ha].
  - constructor.
  - constructor.
    + apply IH. intros; apply HRS; simpl; auto.
    + rewrite Forall_forall in *. intros x Hx. apply HRS; simpl; auto.
Qed.

Section LoopFacts.

Variable tzdata : string -> Z -> Z.
Variable localZone : string.
Variable busyPeriods : list Period.
Variable endDate : Z.
Variables slotDuration bufferBeforeMs bufferAfterMs : Z.
Variables startHour endHour : Z.
Variable excluded : option (list Z).
Variables isSingleDaySearch userSpecifiedEndHour : bool.
Variable tz : string.

Let step := scanStep tzdata localZone busyPeriods slotDuration bufferBeforeMs
              bufferAfterMs startHour endHour excluded isSingleDaySearch
              userSpecifiedEndHour tz.
Let cond := scanCond endDate.
Let loop := scanLoop tzdata localZone busyPeriods endDate slotDuration
              bufferBeforeMs bufferAfterMs startHour endHour excluded
              isSingleDaySearch userSpecifiedEndHour tz.
Let checked := slotsChecked tzdata localZone busyPeriods endDate slotDuration
                 bufferBeforeMs bufferAfterMs startHour endHour
                 userSpecifiedEndHour tz.

Lemma advanceToNextDay_later cur :
  0 <= startHour ->
  cur < advanceToNextDay tzdata localZone startHour tz cur.
Proof.
  intros H0. unfold advanceToNextDay. rewrite setHourInTimezone_eq.
  pose proof (getHourInTimezone_range tzdata (cur + 24 * 60 * 60 * 1000) tz) as Hh.
  match goal with |- _ < _ - ?m mod _ =>
    assert (B := Z.mod_pos_bound m 3600000 ltac:(lia)) end.
  lia.
Qed.

(** One run of the body either moves the cursor forward and leaves the
    slots alone, or tests the position of the cursor, which then satisfies
    the hour bounds, and steps thirty minutes. *)
Lemma scanStep_cases st :
  (freeSlots (step st) = freeSlots st
   /\ explored (step st) = explored st
   /\ (0 <= startHour -> currentTime st < currentTime (step st)))
  \/ (currentTime (step st) = currentTime st + 1800000
      /\ explored (step st) = S (explored st)
      /\ startWithinHours tzdata startHour endHour tz (currentTime st)
      /\ (userSpecifiedEndHour = false ->
          endWithinHours tzdata localZone endHour tz
            (currentTime st + slotDuration + bufferAfterMs))
      /\ (freeSlots (step st) = freeSlots st
          \/ (isSlotFree busyPeriods (currentTime st - bufferBeforeMs)
                (currentTime st + slotDuration + bufferAfterMs) = true
              /\ freeSlots (step st)
                 = freeSlots st ++ [ {| slot_start := currentTime st;
                                        slot_end := currentTime st + slotDuration;
                                        slot_available := true |} ]))).
Proof.
  unfold step, scanStep. cbv zeta.
  destruct (includesDay excluded _) eqn:Ex.
  { left. simpl. auto using advanceToNextDay_later. }
  destruct (negb isSingleDaySearch && _) eqn:Ewe.
  { left. simpl. auto using advanceToNextDay_later. }
  destruct ((_ <? startHour) || (_ >? endHour)) eqn:Eh.
  { left. destruct (_ >? endHour) eqn:Egt; simpl.
    - auto using advanceToNextDay_later.
    - rewrite orb_false_r in Eh. apply Z.ltb_lt in Eh.
      repeat split. intros _. apply setHourInTimezone_later. exact Eh. }
  apply orb_false_iff in Eh. destruct Eh as [Elo Ehi].
  apply Z.ltb_ge in Elo. rewrite Z.gtb_ltb in Ehi. apply Z.ltb_ge in Ehi.
  destruct (negb userSpecifiedEndHour && _) eqn:Eend.
  { left. simpl. auto using advanceToNextDay_later. }
  right. simpl. split; [lia|]. split; [reflexivity|].
  split; [split; assumption|]. split.
  - intros Hu. rewrite Hu in Eend. simpl in Eend.
    apply orb_false_iff in Eend. destruct Eend as [E1 E2].
    rewrite Z.gtb_ltb in E1. apply Z.ltb_ge in E1.
    split; [exact E1|]. intros Heq. rewrite Heq, Z.eqb_refl in E2. simpl in E2.
    rewrite Z.gtb_ltb in E2. apply Z.ltb_ge in E2.
    pose proof (getMinutes_range tzdata localZone
                  (currentTime st + slotDuration + bufferAfterMs)). lia.
  - destruct (isSlotFree _ _ _) eqn:Ef; [right|left]; auto.
Qed.

(** The rule for the loop: what holds before it and is kept by the body
    holds when it ends, together with the negation of its condition. *)
Lemma scanLoop_invariant (P : ScanState -> Prop) :
  (forall st, P st -> cond st = true -> P (step st)) ->
  forall fuel st st',
    P st -> loop fuel st = Some st' -> P st' /\ cond st' = false.
Proof.
  intros Hstep. induction fuel as [|fuel IH]; intros st st' HP Hrun.
  - discriminate.
  - simpl in Hrun. fold cond step in Hrun.
    destruct (cond st) eqn:Ec.
    + apply (IH (step st)); [apply Hstep; assumption | exact Hrun].
    + inversion Hrun; subst. auto.
Qed.

(** With a start hour that is not negative the cursor moves forward at each
    run of the body, so the loop ends. *)
Lemma scanLoop_terminates :
  0 <= startHour ->
  forall fuel st,
    (Z.to_nat (endDate - currentTime st) < fuel)%nat ->
    exists st', loop fuel st = Some st'.
Proof.
  intros H0. induction fuel as [|fuel IH]; intros st Hfuel; [lia|].
  simpl. fold cond step. destruct (cond st) eqn:Ec; [|eauto].
  apply IH. unfold cond, scanCond in Ec. apply andb_true_iff in Ec.
  destruct Ec as [Ec _]. apply Z.ltb_lt in Ec.
  assert (currentTime st < currentTime (step st)).
  { destruct (scanStep_cases st) as [[_ [_ H]]|[H _]]; [auto|lia]. }
  lia.
Qed.

Lemma slotsChecked_step st :
  checked st -> cond st = true -> checked (step st).
Proof.
  intros [[Hlen Hex] Hall] Hc. unfold cond, scanCond in Hc.
  apply andb_true_iff in Hc. destruct Hc as [Hc1 Hc2].
  apply Z.ltb_lt in Hc1. apply Nat.ltb_lt in Hc2.
  destruct (scanStep_cases st) as [[E [Ee _]]|[_ [Ee [Hs [He [E|[Hf E]]]]]]];
    unfold checked, slotsChecked; rewrite E, Ee.
  - auto.
  - split; [split; lia | assumption].
  - rewrite length_app. simpl. split; [split; lia|].
    apply Forall_app. split; [assumption|].
    constructor; [|constructor]. simpl. auto.
Qed.

Lemma slotsOrdered_step cur0 st :
  0 <= startHour ->
  slotsOrdered cur0 st -> cond st = true -> slotsOrdered cur0 (step st).
Proof.
  intros H0 [Hc0 [Hall Hs]] _.
  assert (Hmono : forall c, currentTime st <= c ->
            Forall (fun s => cur0 <= slot_start s /\ slot_start s + 1800000 <= c)
              (freeSlots st)).
  { intros c Hc. eapply Forall_impl; [|exact Hall]. simpl. intros; lia. }
  destruct (scanStep_cases st) as [[E [_ Hlt]]|[Hcur [_ [_ [_ [E|[_ E]]]]]]];
    unfold slotsOrdered; rewrite E.
  - specialize (Hlt H0). split; [lia|]. split; [apply Hmono; lia|assumption].
  - rewrite Hcur. split; [lia|]. split; [apply Hmono; lia|assumption].
  - rewrite Hcur. split; [lia|]. split.
    + apply Forall_app. split; [apply Hmono; lia|].
      constructor; [simpl; lia|constructor].
    + apply StronglySorted_snoc; [assumption|].
      eapply Forall_impl; [|exact Hall]. unfold halfHourApart. simpl. intros; lia.
Qed.

End LoopFacts.

(** ** [calculateFreeSlotsAdvanced] *)

Section ScannerFacts.

Variable tzdata : string -> Z -> Z.
Variable localZone : string.
Variable now : Z.
Variable busyPeriods : list Period.
Variables startDate endDate duration : Z.
Variable options : option Options.

Let scan fuel :=
  scanAdvanced tzdata localZone now fuel busyPeriods startDate endDate duration
    options.
Let calc fuel :=
  calculateFreeSlotsAdvanced tzdata localZone now fuel busyPeriods startDate
    endDate duration options.
Let cur0 := initialCursor tzdata localZone now startDate (startHourOf options)
              (zoneOf options).

Lemma calc_scan fuel r :
  calc fuel = Some r <->
  exists st, scan fuel = Some st /\ r = firstn 5 (freeSlots st).
Proof.
  unfold calc, calculateFreeSlotsAdvanced. fold (scan fuel).
  destruct (scan fuel) as [st|]; simpl; split.
  - intros H. inversion H. eauto.
  - intros [st' [H1 H2]]. inversion H1. subst. reflexivity.
  - discriminate.
  - intros [st' [H1 _]]. discriminate.
Qed.

Lemma scanAdvanced_terminates :
  0 <= startHourOf options -> exists fuel st, scan fuel = Some st.
Proof.
  intros H0. exists (S (Z.to_nat (endDate - cur0))).
  unfold scan, scanAdvanced. cbv zeta.
  apply scanLoop_terminates; [exact H0|]. simpl. fold cur0. lia.
Qed.

Lemma scanAdvanced_checked fuel st :
  scan fuel = Some st ->
  slotsChecked tzdata localZone (sortByStart busyPeriods) endDate
    (duration * 60 * 1000) (bufferBeforeOf options) (bufferAfterOf options)
    (startHourOf options) (endHourOf options) (endHourGiven options)
    (zoneOf options) st
  /\ scanCond endDate st = false.
Proof.
  unfold scan, scanAdvanced. cbv zeta.
  apply scanLoop_invariant.
  - intros st0. apply slotsChecked_step.
  - split; simpl; [split; lia|constructor].
Qed.

Lemma scanAdvanced_ordered fuel st :
  0 <= startHourOf options ->
  scan fuel = Some st -> slotsOrdered cur0 st.
Proof.
  intros H0. unfold scan, scanAdvanced. cbv zeta. intros Hrun.
  eapply scanLoop_invariant in Hrun.
  - destruct Hrun as [H _]. exact H.
  - intros st0. apply slotsOrdered_step. exact H0.
  - repeat split; simpl; try constructor. fold cur0. lia.
Qed.

Lemma calc_terminates :
  0 <= startHourOf options -> exists fuel r, calc fuel = Some r.
Proof.
  intros H0. destruct (scanAdvanced_terminates H0) as [fuel [st Hst]].
  exists fuel, (firstn 5 (freeSlots st)). apply calc_scan. eauto.
Qed.

Lemma calc_ordered fuel r :
  0 <= startHourOf options ->
  calc fuel = Some r ->
  StronglySorted halfHourApart r
  /\ forall s, In s r -> cur0 <= slot_start s.
Proof.
  intros H0 Hr. apply calc_scan in Hr. destruct Hr as [st [Hst ->]].
  destruct (scanAdvanced_ordered fuel st H0 Hst) as [_ [Hall Hs]]. split.
  - apply StronglySorted_firstn. exact Hs.
  - intros s Hin. apply In_firstn_In in Hin.
    rewrite Forall_forall in Hall. apply Hall in Hin. lia.
Qed.

Lemma calc_checked fuel r s :
  calc fuel = Some r -> In s r ->
  slot_start s < endDate
  /\ slot_end s = slot_start s + duration * 60 * 1000
  /\ startWithinHours tzdata (startHourOf options) (endHourOf options)
       (zoneOf options) (slot_start s)
  /\ (endHourGiven options = false ->
      endWithinHours tzdata localZone (endHourOf options) (zoneOf options)
        (slot_start s + duration * 60 * 1000 + bufferAfterOf options)).
Proof.
  intros Hr Hin. apply calc_scan in Hr. destruct Hr as [st [Hst ->]].
  apply In_firstn_In in Hin.
  destruct (scanAdvanced_checked fuel st Hst) as [[_ Hall] _].
  rewrite Forall_forall in Hall. apply Hall in Hin. tauto.
Qed.

End ScannerFacts.

(** C7: for a start hour that is not negative the scan ends, and the list it
    returns has at most five slots, in non-decreasing order of start. *)
Theorem result_capped_and_chronological :
  forall tzdata localZone now busyPeriods startDate endDate duration options,
    0 <= startHourOf options ->
    (exists fuel r,
       calculateFreeSlotsAdvanced tzdata localZone now fuel busyPeriods
         startDate endDate duration options = Some r)
    /\ forall fuel r,
         calculateFreeSlotsAdvanced tzdata localZone now fuel busyPeriods
           startDate endDate duration options = Some r ->
         (List.length r <= 5)%nat
         /\ StronglySorted (fun a b => slot_start a <= slot_start b) r.
Proof.
  intros tzdata localZone now busyPeriods startDate endDate duration options H0.
  split; [apply calc_terminates; exact H0|].
  intros fuel r Hr. split.
  - apply calc_scan in Hr. destruct Hr as [st [_ ->]]. apply firstn_le_length.
  - destruct (calc_ordered _ _ _ _ _ _ _ _ fuel r H0 Hr) as [Hs _].
    eapply StronglySorted_weaken; [|exact Hs].
    unfold halfHourApart. intros; lia.
Qed.

(** The search of 2024-02-06 in UTC with a busy hour from 10:00. *)
Lemma result_capped_and_chronological_witness :
  (exists fuel r,
     calculateFreeSlotsAdvanced fixedZones "UTC" 0 fuel
       [ {| busy_start := utc 2024 2 6 10 0 0; busy_end := utc 2024 2 6 11 0 0 |} ]
       (utc 2024 2 6 0 0 0) (utc 2024 2 7 0 0 0) 30
       (inZone "UTC") = Some r)
  /\ forall fuel r,
       calculateFreeSlotsAdvanced fixedZones "UTC" 0 fuel
         [ {| busy_start := utc 2024 2 6 10 0 0; busy_end := utc 2024 2 6 11 0 0 |} ]
         (utc 2024 2 6 0 0 0) (utc 2024 2 7 0 0 0) 30
         (inZone "UTC") = Some r ->
       (List.length r <= 5)%nat
       /\ StronglySorted (fun a b => slot_start a <= slot_start b) r.
Proof.
  apply (result_capped_and_chronological fixedZones "UTC" 0).
  vm_compute. discriminate.
Defined.

(** C6 as stated fails: for a meeting of one hour on a free day the scanner
    returns 09:00-10:00 and 09:30-10:30, which overlap. *)
Lemma hour_long_slots_overlap :
  exists r a b,
    calculateFreeSlotsAdvanced fixedZones "UTC" 0 100 []
      (utc 2024 2 6 0 0 0) (utc 2024 2 7 0 0 0) 60 (inZone "UTC") = Some r
    /\ In a r /\ In b r /\ a <> b /\ ~ disjointSlots a b.
Proof.
  eexists.
  exists {| slot_start := utc 2024 2 6 9 0 0; slot_end := utc 2024 2 6 10 0 0;
            slot_available := true |}.
  exists {| slot_start := utc 2024 2 6 9 30 0; slot_end := utc 2024 2 6 10 30 0;
            slot_available := true |}.
  split; [vm_compute; reflexivity|].
  split; [vm_compute; auto|]. split; [vm_compute; auto|].
  split; [vm_compute; discriminate|].
  unfold disjointSlots. vm_compute. intros [H|H]; apply H; reflexivity.
Qed.

(** C6, amended: for a start hour that is not negative the scan ends and any
    two slots it returns start thirty minutes apart or more, in the order
    returned; so for a meeting of thirty minutes or less their half-open
    intervals [start, start + duration) are pairwise disjoint. *)
Theorem returned_slots_half_hour_apart :
  forall tzdata localZone now busyPeriods startDate endDate duration options,
    0 <= startHourOf options ->
    (exists fuel r,
       calculateFreeSlotsAdvanced tzdata localZone now fuel busyPeriods
         startDate endDate duration options = Some r)
    /\ forall fuel r,
         calculateFreeSlotsAdvanced tzdata localZone now fuel busyPeriods
           startDate endDate duration options = Some r ->
         StronglySorted halfHourApart r
         /\ (forall s, In s r -> slot_end s = slot_start s + duration * 60 * 1000)
         /\ (duration <= 30 -> StronglySorted disjointSlots r).
Proof.
  intros tzdata localZone now busyPeriods startDate endDate duration options H0.
  split; [apply calc_terminates; exact H0|].
  intros fuel r Hr.
  destruct (calc_ordered _ _ _ _ _ _ _ _ fuel r H0 Hr) as [Hs _].
  assert (Hend : forall s, In s r -> slot_end s = slot_start s + duration * 60 * 1000).
  { intros s Hin. eapply calc_checked in Hin; [|exact Hr]. tauto. }
  split; [exact Hs|]. split; [exact Hend|].
  intros Hd. eapply StronglySorted_weaken; [|exact Hs].
  unfold halfHourApart, disjointSlots. intros a b Ha Hb Hab. left.
  rewrite (Hend a Ha). lia.
Qed.

(** Half-hour meetings on 2024-02-06 in UTC. *)
Lemma returned_slots_half_hour_apart_witness :
  (exists fuel r,
     calculateFreeSlotsAdvanced fixedZones "UTC" 0 fuel []
       (utc 2024 2 6 0 0 0) (utc 2024 2 7 0 0 0) 30 (inZone "UTC") = Some r)
  /\ forall fuel r,
       calculateFreeSlotsAdvanced fixedZones "UTC" 0 fuel []
         (utc 2024 2 6 0 0 0) (utc 2024 2 7 0 0 0) 30 (inZone "UTC") = Some r ->
       StronglySorted halfHourApart r
       /\ (forall s, In s r -> slot_end s = slot_start s + 30 * 60 * 1000)
       /\ (30 <= 30 -> StronglySorted disjointSlots r).
Proof.
  apply (returned_slots_half_hour_apart fixedZones "UTC" 0).
  vm_compute. discriminate.
Defined.

(** C4 as stated fails: on a day booked from end to end the loop tests
    eighteen cursor positions, 09:00 to 17:30, and finds none free. *)
Lemma booked_day_explores_eighteen_positions :
  exists st,
    scanAdvanced fixedZones "UTC" 0 100
      [ {| busy_start := utc 2024 2 6 0 0 0; busy_end := utc 2024 2 7 0 0 0 |} ]
      (utc 2024 2 6 0 0 0) (utc 2024 2 7 0 0 0) 30 (inZone "UTC") = Some st
    /\ explored st = 18%nat
    /\ ~ (explored st <= 10)%nat
    /\ freeSlots st = [].
Proof.
  eexists. split; [vm_compute; reflexivity|]. simpl.
  split; [reflexivity|]. split; [lia|reflexivity].
Qed.

(** C4, amended: the cap of the loop is on the slots collected, not on the
    positions examined.  For a start hour that is not negative the loop
    ends; it ends with at most ten slots collected, each at a position it
    examined, and it ends either
    because the cursor reached the end of the window or because ten slots
    were collected, in which case it does not go on to the end of the
    window; the method returns the first five of the slots collected. *)
Theorem scan_stops_at_ten_collected_slots :
  forall tzdata localZone now busyPeriods startDate endDate duration options,
    0 <= startHourOf options ->
    (exists fuel st,
       scanAdvanced tzdata localZone now fuel busyPeriods startDate endDate
         duration options = Some st)
    /\ forall fuel st,
         scanAdvanced tzdata localZone now fuel busyPeriods startDate endDate
           duration options = Some st ->
         (List.length (freeSlots st) <= 10)%nat
         /\ (List.length (freeSlots st) <= explored st)%nat
         /\ (endDate <= currentTime st \/ List.length (freeSlots st) = 10%nat)
         /\ calculateFreeSlotsAdvanced tzdata localZone now fuel busyPeriods
              startDate endDate duration options
            = Some (firstn 5 (freeSlots st)).
Proof.
  intros tzdata localZone now busyPeriods startDate endDate duration options H0.
  split; [apply scanAdvanced_terminates; exact H0|].
  intros fuel st Hst.
  destruct (scanAdvanced_checked _ _ _ _ _ _ _ _ fuel st Hst)
    as [[[Hlen Hex] _] Hc].
  split; [exact Hlen|]. split; [exact Hex|]. split.
  - unfold scanCond in Hc. apply andb_false_iff in Hc. destruct Hc as [Hc|Hc].
    + left. apply Z.ltb_ge in Hc. exact Hc.
    + right. apply Nat.ltb_ge in Hc. lia.
  - unfold calculateFreeSlotsAdvanced. rewrite Hst. reflexivity.
Qed.

(** A free day in UTC: the loop stops at 14:00 with ten slots. *)
Lemma scan_stops_at_ten_collected_slots_witness :
  (exists fuel st,
     scanAdvanced fixedZones "UTC" 0 fuel [] (utc 2024 2 6 0 0 0)
       (utc 2024 2 7 0 0 0) 30 (inZone "UTC") = Some st)
  /\ forall fuel st,
       scanAdvanced fixedZones "UTC" 0 fuel [] (utc 2024 2 6 0 0 0)
         (utc 2024 2 7 0 0 0) 30 (inZone "UTC") = Some st ->
       (List.length (freeSlots st) <= 10)%nat
       /\ (List.length (freeSlots st) <= explored st)%nat
       /\ (utc 2024 2 7 0 0 0 <= currentTime st
           \/ List.length (freeSlots st) = 10%nat)
       /\ calculateFreeSlotsAdvanced fixedZones "UTC" 0 fuel []
            (utc 2024 2 6 0 0 0) (utc 2024 2 7 0 0 0) 30 (inZone "UTC")
          = Some (firstn 5 (freeSlots st)).
Proof.
  apply (scan_stops_at_ten_collected_slots fixedZones "UTC" 0).
  vm_compute. discriminate.
Defined.

(** C10: the scanner does not clamp to the start of the window.  For the
    window 2024-02-06 14:00 to 24:00 UTC, searched from another day with the
    default start hour 9 and no busy period, the first slot returned starts
    at 09:00, before the window; and whatever the input, every slot returned
    starts strictly before the end of the window. *)
Theorem slots_before_window_start_but_before_window_end :
  (exists r s,
     calculateFreeSlotsAdvanced fixedZones "UTC" 0 100 []
       (utc 2024 2 6 14 0 0) (utc 2024 2 7 0 0 0) 30 (inZone "UTC") = Some r
     /\ In s r
     /\ slot_start s < utc 2024 2 6 14 0 0
     /\ startHourOf (inZone "UTC")
        < getHourInTimezone fixedZones (utc 2024 2 6 14 0 0) (zoneOf (inZone "UTC"))
     /\ getDateStringInTimezone fixedZones 0 (zoneOf (inZone "UTC"))
        <> getDateStringInTimezone fixedZones (utc 2024 2 6 14 0 0)
             (zoneOf (inZone "UTC")))
  /\ forall tzdata localZone now fuel busyPeriods startDate endDate duration
            options r s,
       calculateFreeSlotsAdvanced tzdata localZone now fuel busyPeriods
         startDate endDate duration options = Some r ->
       In s r ->
       slot_start s < endDate.
Proof.
  split.
  - eexists.
    exists {| slot_start := utc 2024 2 6 9 0 0; slot_end := utc 2024 2 6 9 30 0;
              slot_available := true |}.
    split; [vm_compute; reflexivity|]. split; [vm_compute; auto|].
    vm_compute. repeat split; congruence.
  - intros tzdata localZone now fuel busyPeriods startDate endDate duration
           options r s Hr Hin.
    eapply calc_checked in Hin; [|exact Hr]. tauto.
Qed.

(** The slots of the window 14:00 to 24:00 all start before 24:00. *)
Lemma slots_before_window_end_witness :
  exists r s,
    calculateFreeSlotsAdvanced fixedZones "UTC" 0 100 []
      (utc 2024 2 6 14 0 0) (utc 2024 2 7 0 0 0) 30 (inZone "UTC") = Some r
    /\ In s r
    /\ slot_start s < utc 2024 2 7 0 0 0.
Proof.
  eexists.
  exists {| slot_start := utc 2024 2 6 9 0 0; slot_end := utc 2024 2 6 9 30 0;
            slot_available := true |}.
  assert (Hr : calculateFreeSlotsAdvanced fixedZones "UTC" 0 100 []
                 (utc 2024 2 6 14 0 0) (utc 2024 2 7 0 0 0) 30 (inZone "UTC")
               = Some (firstn 5
                   (map (fun k => {| slot_start := utc 2024 2 6 9 0 0 + k * 1800000;
                                     slot_end := utc 2024 2 6 9 30 0 + k * 1800000;
                                     slot_available := true |})
                        [0; 1; 2; 3; 4; 5; 6])))
    by (vm_compute; reflexivity).
  assert (Hin : In {| slot_start := utc 2024 2 6 9 0 0;
                      slot_end := utc 2024 2 6 9 30 0;
                      slot_available := true |}
                  (firstn 5
                     (map (fun k => {| slot_start := utc 2024 2 6 9 0 0 + k * 1800000;
                                       slot_end := utc 2024 2 6 9 30 0 + k * 1800000;
                                       slot_available := true |})
                          [0; 1; 2; 3; 4; 5; 6])))
    by (vm_compute; auto).
  split; [exact Hr|]. split; [exact Hin|].
  exact (proj2 slots_before_window_start_but_before_window_end
           fixedZones "UTC"%string 0 100%nat [] (utc 2024 2 6 14 0 0)
           (utc 2024 2 7 0 0 0) 30 (inZone "UTC") _ _ Hr Hin).
Defined.

(** Whatever the input, a slot returned starts at an hour of the zone between
    the start hour and the end hour; and when [notAfter] is absent the hour
    of its buffered end in the zone does not exceed the end hour, with zero
    minutes on the process's clock when it equals it. *)
Lemma returned_slots_within_hours :
  forall tzdata localZone now fuel busyPeriods startDate endDate duration
         options r s,
    calculateFreeSlotsAdvanced tzdata localZone now fuel busyPeriods
      startDate endDate duration options = Some r ->
    In s r ->
    startWithinHours tzdata (startHourOf options) (endHourOf options)
      (zoneOf options) (slot_start s)
    /\ (optField notAfter options = None ->
        endWithinHours tzdata localZone (endHourOf options) (zoneOf options)
          (slot_start s + duration * 60 * 1000 + bufferAfterOf options)).
Proof.
  intros tzdata localZone now fuel busyPeriods startDate endDate duration
         options r s Hr Hin.
  eapply calc_checked in Hin; [|exact Hr].
  destruct Hin as [_ [_ [Hs He]]]. split; [exact Hs|].
  intros Hn. apply He. unfold endHourGiven. rewrite Hn. reflexivity.
Qed.

(** C5: with the process running in UTC and the search in Asia/Kolkata, an
    evening search for one hour, [notAfter] absent, returns the slot 17:30 to
    18:30 local time: its buffered end has hour 18, the end hour, and 30
    minutes in the zone; the minutes the scanner read, those of the
    process's clock at 13:00 UTC, are 0.  With the process in Asia/Kolkata
    the same search returns 17:00 to 18:00 only. *)
Theorem evening_slot_ends_past_end_hour :
  let options :=
    Some {| timePreference := Some evening; notBefore := None; notAfter := None;
            excludeDays := None; bufferBefore := None; bufferAfter := None;
            timezone := Some "Asia/Kolkata"%string |} in
  let slotEnd := ist 2024 2 6 18 30 0 in
  calculateFreeSlotsAdvanced fixedZones "UTC" 0 100 []
    (ist 2024 2 6 9 45 0) (ist 2024 2 7 0 0 0) 60 options
  = Some [ {| slot_start := ist 2024 2 6 17 30 0; slot_end := slotEnd;
              slot_available := true |} ]
  /\ endHourGiven options = false
  /\ endHourOf options = 18
  /\ bufferAfterOf options = 0
  /\ getHourInTimezone fixedZones slotEnd "Asia/Kolkata" = 18
  /\ minutesInZone fixedZones "Asia/Kolkata" slotEnd = 30
  /\ getMinutes fixedZones "UTC" slotEnd = 0
  /\ calculateFreeSlotsAdvanced fixedZones "Asia/Kolkata" 0 100 []
       (ist 2024 2 6 9 45 0) (ist 2024 2 7 0 0 0) 60 options
     = Some [ {| slot_start := ist 2024 2 6 17 0 0;
                 slot_end := ist 2024 2 6 18 0 0;
                 slot_available := true |} ].
Proof. vm_compute. repeat split; reflexivity. Qed.

(** ** The cursor of a search that starts today *)

Lemma minute_of_subhour (w : Z) :
  (w / 60000) mod 60 * 60000 <= w mod 3600000 < (w / 60000) mod 60 * 60000 + 60000.
Proof.
  rewrite <- subhour_decompose.
  pose proof (Z.mod_pos_bound (w / 1000) 60 ltac:(lia)).
  pose proof (Z.mod_pos_bound w 1000 ltac:(lia)).
  lia.
Qed.

Lemma half_hour_floor (w : Z) :
  (w mod 3600000 < 1800000 ->
   (w / 1800000 + 1) * 1800000 = w - w mod 3600000 + 1800000)
  /\ (1800000 <= w mod 3600000 ->
      (w / 1800000 + 1) * 1800000 = w - w mod 3600000 + 3600000)
  /\ (w mod 1800000 = 0 -> w mod 3600000 = 0 \/ w mod 3600000 = 1800000).
Proof.
  pose proof (Z.div_mod w 3600000 ltac:(lia)) as H1.
  pose proof (Z.mod_pos_bound w 3600000 ltac:(lia)) as B1.
  pose proof (Z.div_mod w 1800000 ltac:(lia)) as H2.
  pose proof (Z.mod_pos_bound w 1800000 ltac:(lia)) as B2.
  repeat split; intros; lia.
Qed.

Lemma mod60_mod30 (x : Z) : (x mod 60) mod 30 = x mod 30.
Proof.
  pose proof (Z.div_mod x 60 ltac:(lia)) as H1.
  pose proof (Z.mod_pos_bound x 60 ltac:(lia)) as B1.
  pose proof (Z.div_mod (x mod 60) 30 ltac:(lia)) as H2.
  pose proof (Z.mod_pos_bound (x mod 60) 30 ltac:(lia)) as B2.
  apply Z.mod_unique with (q := 2 * (x / 60) + (x mod 60) / 30); lia.
Qed.

Section TodayFacts.

Variable tzdata : string -> Z -> Z.
Variable localZone : string.
Variable lo : Z.
Hypothesis fixedLocal : forall t, tzdata localZone t = lo.

Lemma setMinutes_eq date min :
  setMinutes tzdata localZone date min 0 0
  = date - (date + lo * 60000) mod 3600000 + min * 60000.
Proof.
  unfold setMinutes.
  pose proof (subhour_local tzdata localZone date) as H.
  unfold wallClock in H. rewrite fixedLocal in H. lia.
Qed.

(** Where the cursor starts when the window starts today and [now] is past
    the start hour. *)
Lemma initialCursor_today now startDate startHour tz :
  getDateStringInTimezone tzdata now tz
  = getDateStringInTimezone tzdata startDate tz ->
  now > setHourInTimezone tzdata localZone startDate startHour tz ->
  let r := (now + lo * 60000) mod 3600000 in
  let m := getMinutes tzdata localZone now in
  initialCursor tzdata localZone now startDate startHour tz
  = if (m >? 0) && (m <=? 30) then now - r + 1800000
    else if m >? 30 then now - r + 3600000
    else now.
Proof.
  intros Hday Hnow. cbv zeta. unfold initialCursor. cbv zeta.
  assert (Hgt : (now >? setHourInTimezone tzdata localZone startDate startHour tz)
                = true) by (rewrite Z.gtb_ltb; apply Z.ltb_lt; lia).
  rewrite Hday, Z.eqb_refl, Hgt. cbn [andb].
  destruct ((getMinutes tzdata localZone now >? 0)
            && (getMinutes tzdata localZone now <=? 30)) eqn:E1.
  - rewrite setMinutes_eq. lia.
  - destruct (getMinutes tzdata localZone now >? 30) eqn:E2; [|reflexivity].
    rewrite setMinutes_eq.
    rewrite Z.gtb_ltb in E2. apply Z.ltb_lt in E2.
    pose proof (getMinutes_range tzdata localZone now) as Hm.
    pose proof (minute_of_subhour (now + lo * 60000)) as Hr.
    unfold getMinutes, wallClock in *. rewrite fixedLocal in *.
    set (m := ((now + lo * 60000) / 60000) mod 60) in *.
    set (r := (now + lo * 60000) mod 3600000) in *.
    assert (Hmod : (now + (60 - m) * 60 * 1000 + lo * 60000) mod 3600000
                   = r + (60 - m) * 60000 - 3600000).
    { symmetry.
      apply Z.mod_unique with (q := (now + lo * 60000) / 3600000 + 1); [lia|].
      pose proof (Z.div_mod (now + lo * 60000) 3600000 ltac:(lia)) as Hd.
      fold r in Hd. lia. }
    rewrite Hmod. lia.
Qed.

(** That cursor against the half hours of the process's clock. *)
Lemma initialCursor_today_boundary now startDate startHour tz :
  getDateStringInTimezone tzdata now tz
  = getDateStringInTimezone tzdata startDate tz ->
  now > setHourInTimezone tzdata localZone startDate startHour tz ->
  (getMinutes tzdata localZone now mod 30 <> 0 ->
   initialCursor tzdata localZone now startDate startHour tz
   = nextHalfHour tzdata localZone now)
  /\ (wallClock tzdata localZone now mod 1800000 = 0 ->
      initialCursor tzdata localZone now startDate startHour tz = now).
Proof.
  intros Hday Hnow. rewrite (initialCursor_today _ _ _ _ Hday Hnow).
  unfold nextHalfHour, wallClock. rewrite fixedLocal.
  pose proof (getMinutes_range tzdata localZone now) as Hm.
  pose proof (minute_of_subhour (now + lo * 60000)) as Hr.
  destruct (half_hour_floor (now + lo * 60000)) as [Hlow [Hhigh Hex]].
  unfold getMinutes, wallClock in *. rewrite fixedLocal in *.
  set (m := ((now + lo * 60000) / 60000) mod 60) in *.
  set (r := (now + lo * 60000) mod 3600000) in *.
  split.
  - intros Hm30.
    destruct (Z_lt_ge_dec m 30) as [Hlt|Hge].
    + assert (m <> 0) by (intros ->; apply Hm30; reflexivity).
      replace ((m >? 0) && (m <=? 30)) with true
        by (symmetry; apply andb_true_iff; split;
            [rewrite Z.gtb_ltb; apply Z.ltb_lt | apply Z.leb_le]; lia).
      rewrite Hlow by lia. lia.
    + assert (m <> 30) by (intros ->; apply Hm30; reflexivity).
      replace ((m >? 0) && (m <=? 30)) with false
        by (symmetry; apply andb_false_iff; right; apply Z.leb_gt; lia).
      replace (m >? 30) with true
        by (symmetry; rewrite Z.gtb_ltb; apply Z.ltb_lt; lia).
      rewrite Hhigh by lia. lia.
  - intros Hb. destruct (Hex Hb) as [H0|H30].
    + assert (m = 0) by lia.
      replace ((m >? 0) && (m <=? 30)) with false
        by (symmetry; apply andb_false_iff; left; rewrite Z.gtb_ltb;
            apply Z.ltb_ge; lia).
      replace (m >? 30) with false
        by (symmetry; rewrite Z.gtb_ltb; apply Z.ltb_ge; lia).
      reflexivity.
    + assert (m = 30) by lia.
      replace ((m >? 0) && (m <=? 30)) with true
        by (symmetry; apply andb_true_iff; split;
            [rewrite Z.gtb_ltb; apply Z.ltb_lt | apply Z.leb_le]; lia).
      lia.
Qed.

(** The half hours of a zone are those of the process's clock when the two
    offsets differ by a multiple of thirty minutes. *)
Lemma half_hours_coincide tz now :
  (lo - tzdata tz now) mod 30 = 0 ->
  nextHalfHour tzdata tz now = nextHalfHour tzdata localZone now
  /\ minutesInZone tzdata tz now mod 30 = getMinutes tzdata localZone now mod 30
  /\ wallClock tzdata tz now mod 1800000
     = wallClock tzdata localZone now mod 1800000.
Proof.
  intros Hal. apply Z.mod_divide in Hal; [|lia]. destruct Hal as [k Hk].
  unfold nextHalfHour, minutesInZone, getMinutes, wallClock. rewrite fixedLocal.
  set (zo := tzdata tz now) in *.
  assert (Hw : now + lo * 60000 = now + zo * 60000 + k * 1800000) by lia.
  rewrite Hw. split; [|split].
  - rewrite Z.div_add by lia. lia.
  - rewrite !mod60_mod30. set (x := now + zo * 60000).
    replace (x + k * 1800000) with (x + (k * 30) * 60000) by lia.
    rewrite (Z.div_add x (k * 30) 60000) by lia.
    rewrite (Z.mod_add (x / 60000) k 30) by lia. reflexivity.
  - rewrite Z.mod_add by lia. reflexivity.
Qed.

End TodayFacts.

(** C3 as stated fails: at 11:00:00.000 sharp, for a window that starts
    today at 09:00, the first slot returned starts at 11:00, at [now] itself
    and before 11:30, the next half hour strictly after [now]. *)
Lemma slot_starts_at_now_on_the_hour :
  let now := utc 2024 2 6 11 0 0 in
  let startDate := utc 2024 2 6 9 0 0 in
  let options := inZone "UTC" in
  getDateStringInTimezone fixedZones now (zoneOf options)
  = getDateStringInTimezone fixedZones startDate (zoneOf options)
  /\ now > setHourInTimezone fixedZones "UTC" startDate (startHourOf options)
             (zoneOf options)
  /\ nextHalfHour fixedZones (zoneOf options) now = utc 2024 2 6 11 30 0
  /\ exists r s,
       calculateFreeSlotsAdvanced fixedZones "UTC" now 100 [] startDate
         (utc 2024 2 7 0 0 0) 30 options = Some r
       /\ In s r
       /\ slot_start s = now
       /\ slot_start s < nextHalfHour fixedZones (zoneOf options) now.
Proof.
  cbv zeta. split; [vm_compute; reflexivity|]. split; [vm_compute; reflexivity|].
  split; [vm_compute; reflexivity|].
  eexists.
  exists {| slot_start := utc 2024 2 6 11 0 0; slot_end := utc 2024 2 6 11 30 0;
            slot_available := true |}.
  split; [vm_compute; reflexivity|]. split; [vm_compute; auto|].
  split; vm_compute; reflexivity.
Qed.

(** C3, amended: take a start hour that is not negative and a process whose
    zone keeps one offset, a multiple of thirty minutes away from the offset
    of the search zone at [now].  When the window starts today in the search
    zone and [now] is later than the cursor first set at the start hour, the
    scan ends and, of the slots returned: if the minute of [now] is neither
    0 nor 30, none starts before the next half hour strictly after [now];
    if [now] is exactly on a full or half hour, none starts before [now]
    (one may start at [now]). *)
Theorem today_search_starts_at_next_half_hour :
  forall tzdata localZone lo now busyPeriods startDate endDate duration options,
    0 <= startHourOf options ->
    (forall t, tzdata localZone t = lo) ->
    (lo - tzdata (zoneOf options) now) mod 30 = 0 ->
    getDateStringInTimezone tzdata now (zoneOf options)
    = getDateStringInTimezone tzdata startDate (zoneOf options) ->
    now > setHourInTimezone tzdata localZone startDate (startHourOf options)
            (zoneOf options) ->
    (exists fuel r,
       calculateFreeSlotsAdvanced tzdata localZone now fuel busyPeriods
         startDate endDate duration options = Some r)
    /\ forall fuel r,
         calculateFreeSlotsAdvanced tzdata localZone now fuel busyPeriods
           startDate endDate duration options = Some r ->
         forall s, In s r ->
           (minutesInZone tzdata (zoneOf options) now mod 30 <> 0 ->
            nextHalfHour tzdata (zoneOf options) now <= slot_start s)
           /\ (wallClock tzdata (zoneOf options) now mod 1800000 = 0 ->
               now <= slot_start s).
Proof.
  intros tzdata localZone lo now busyPeriods startDate endDate duration options
         H0 Hlo Hal Hday Hnow.
  split; [apply calc_terminates; exact H0|].
  intros fuel r Hr s Hin.
  destruct (calc_ordered _ _ _ _ _ _ _ _ fuel r H0 Hr) as [_ Hc0].
  specialize (Hc0 s Hin).
  destruct (initialCursor_today_boundary tzdata localZone lo Hlo now startDate
              (startHourOf options) (zoneOf options) Hday Hnow) as [Hb1 Hb2].
  destruct (half_hours_coincide tzdata localZone lo Hlo (zoneOf options) now Hal)
    as [En [Em Ew]].
  split.
  - intros Hm. rewrite Em in Hm. rewrite En, <- (Hb1 Hm). exact Hc0.
  - intros Hw. rewrite Ew in Hw. rewrite (Hb2 Hw) in Hc0. exact Hc0.
Qed.

(** The search of the example, in Asia/Kolkata with the process in UTC:
    [now] is 11:10 local time, the window starts at 09:00 that day, and the
    next half hour is 11:30. *)
Lemma today_search_witness :
  nextHalfHour fixedZones "Asia/Kolkata" (ist 2024 2 6 11 10 0)
  = ist 2024 2 6 11 30 0
  /\ minutesInZone fixedZones "Asia/Kolkata" (ist 2024 2 6 11 10 0) mod 30 <> 0
  /\ (exists fuel r,
        calculateFreeSlotsAdvanced fixedZones "UTC" (ist 2024 2 6 11 10 0) fuel []
          (ist 2024 2 6 9 0 0) (ist 2024 2 7 0 0 0) 30 (inZone "Asia/Kolkata")
        = Some r)
  /\ forall fuel r,
       calculateFreeSlotsAdvanced fixedZones "UTC" (ist 2024 2 6 11 10 0) fuel []
         (ist 2024 2 6 9 0 0) (ist 2024 2 7 0 0 0) 30 (inZone "Asia/Kolkata")
       = Some r ->
       forall s, In s r ->
         (minutesInZone fixedZones (zoneOf (inZone "Asia/Kolkata"))
            (ist 2024 2 6 11 10 0) mod 30 <> 0 ->
          nextHalfHour fixedZones (zoneOf (inZone "Asia/Kolkata"))
            (ist 2024 2 6 11 10 0) <= slot_start s)
         /\ (wallClock fixedZones (zoneOf (inZone "Asia/Kolkata"))
               (ist 2024 2 6 11 10 0) mod 1800000 = 0 ->
             ist 2024 2 6 11 10 0 <= slot_start s).
Proof.
  split; [vm_compute; reflexivity|]. split; [vm_compute; discriminate|].
  apply (today_search_starts_at_next_half_hour fixedZones "UTC" 0
           (ist 2024 2 6 11 10 0) [] (ist 2024 2 6 9 0 0) (ist 2024 2 7 0 0 0)
           30 (inZone "Asia/Kolkata")).
  - vm_compute. discriminate.
  - intros t. reflexivity.
  - vm_compute. reflexivity.
  - vm_compute. reflexivity.
  - vm_compute. reflexivity.
Defined.

(** ** Failures of the provider *)

(** C8: when the free/busy query is rejected, [findAvailableSlotsAdvanced]
    throws and returns no list, the empty one included; when the listing is
    rejected, [searchEvents] returns the empty array and
    [getLastMeetingOfDay] returns null. *)
Theorem provider_failure_propagates_or_degrades :
  forall tzdata localZone (W : Type) (calendar : CalendarApi W) (now : Z) (w : W),
    (forall fuel duration startDate endDate options e,
       freebusy_query calendar startDate endDate w = Rejected e ->
       findAvailableSlotsAdvanced tzdata localZone W calendar now fuel w
         duration startDate endDate options
       = Thrown (ErrorMsg "Failed to find available slots")
       /\ forall slots,
            findAvailableSlotsAdvanced tzdata localZone W calendar now fuel w
              duration startDate endDate options <> Returned slots)
    /\ (forall query startDate endDate e,
          events_list calendar
            {| req_timeMin := nullish startDate now;
               req_timeMax := nullish endDate (now + 30 * 24 * 60 * 60 * 1000);
               req_q := Some query |} w = Rejected e ->
          searchEvents W calendar now w query startDate endDate = Returned [])
    /\ (forall date timezone e,
          let tz := nullish timezone "Asia/Kolkata"%string in
          events_list calendar
            {| req_timeMin := setHourInTimezone tzdata localZone date 0 tz;
               req_timeMax := setHourInTimezone tzdata localZone date 23 tz
                              + 59 * 60 * 1000 + 59 * 1000 + 999;
               req_q := None |} w = Rejected e ->
          getLastMeetingOfDay tzdata localZone W calendar w date timezone
          = Returned None).
Proof.
  intros tzdata localZone W calendar now w. split; [|split].
  - intros fuel duration startDate endDate options e He.
    unfold findAvailableSlotsAdvanced. rewrite He. simpl.
    split; [reflexivity|]. intros slots. discriminate.
  - intros query startDate endDate e He.
    unfold searchEvents. cbv zeta. rewrite He. reflexivity.
  - intros date timezone e tz He.
    unfold getLastMeetingOfDay, getEvents. cbv zeta. fold tz. rewrite He.
    cbn [await bind tryCatch].
    destruct (statusIs401 (ProviderExn e)); reflexivity.
Qed.

(** The in-memory provider, out of reach. *)
Lemma provider_failure_witness :
  let w := {| mem_events := []; mem_deleted := []; mem_reachable := false;
              mem_busy := [] |} in
  findAvailableSlotsAdvanced fixedZones "UTC" MemWorld memCalendar 0 100 w 30
    (utc 2024 2 6 0 0 0) (utc 2024 2 7 0 0 0) (inZone "UTC")
  = Thrown (ErrorMsg "Failed to find available slots")
  /\ searchEvents MemWorld memCalendar 0 w "flight" None None = Returned []
  /\ getLastMeetingOfDay fixedZones "UTC" MemWorld memCalendar w
       (utc 2024 2 6 0 0 0) None = Returned None.
Proof.
  intros w.
  pose proof (provider_failure_propagates_or_degrades fixedZones "UTC" MemWorld
                memCalendar 0 w) as [Hfree [Hsearch Hlast]].
  split; [|split].
  - apply (Hfree 100%nat 30 (utc 2024 2 6 0 0 0) (utc 2024 2 7 0 0 0)
             (inZone "UTC") unreachable). reflexivity.
  - apply (Hsearch "flight"%string None None unreachable). reflexivity.
  - apply (Hlast (utc 2024 2 6 0 0 0) None unreachable). reflexivity.
Defined.

(** C9 as stated fails: deleting an id the provider does not know, which it
    refuses with 404, and deleting while the provider is out of reach end in
    the same error, whose message names no missing event. *)
Lemma delete_unknown_id_fails_like_any_other :
  let w := {| mem_events := []; mem_deleted := []; mem_reachable := true;
              mem_busy := [] |} in
  let offline := {| mem_events := []; mem_deleted := []; mem_reachable := false;
                    mem_busy := [] |} in
  events_delete memCalendar "ghost" w = (Rejected notFound, w)
  /\ events_delete memCalendar "ghost" offline = (Rejected unreachable, offline)
  /\ notFound <> unreachable
  /\ fst (deleteMeeting MemWorld memCalendar w "ghost")
     = fst (deleteMeeting MemWorld memCalendar offline "ghost")
  /\ fst (deleteMeeting MemWorld memCalendar w "ghost")
     = Thrown (ErrorMsg "Failed to delete meeting").
Proof.
  cbv zeta. repeat split; try reflexivity. discriminate.
Qed.

(** C9, amended: whatever the reason the provider refuses a deletion, an
    unknown id and an id already deleted included, [deleteMeeting] throws
    the one error [Failed to delete meeting]; and when the provider refuses
    the same id twice in a row, both calls throw that error. *)
Theorem delete_failure_is_generic_both_times :
  forall (W : Type) (calendar : CalendarApi W) (w w1 w2 : W) (eventId : string)
         (e1 e2 : ApiError),
    events_delete calendar eventId w = (Rejected e1, w1) ->
    events_delete calendar eventId w1 = (Rejected e2, w2) ->
    deleteMeeting W calendar w eventId
    = (Thrown (ErrorMsg "Failed to delete meeting"), w1)
    /\ deleteMeeting W calendar w1 eventId
       = (Thrown (ErrorMsg "Failed to delete meeting"), w2).
Proof.
  intros W calendar w w1 w2 eventId e1 e2 H1 H2.
  unfold deleteMeeting. rewrite H1, H2. split; reflexivity.
Qed.

(** An event deleted once, then deleted twice more: the provider answers 410
    both times. *)
Lemma delete_failure_witness :
  let standup := {| raw_id := "standup"; raw_summary := None;
                    raw_description := None; raw_start := utc 2024 2 6 9 0 0;
                    raw_end := utc 2024 2 6 9 30 0; raw_attendees := None |} in
  let w0 := {| mem_events := [standup]; mem_deleted := []; mem_reachable := true;
               mem_busy := [] |} in
  let w := snd (deleteMeeting MemWorld memCalendar w0 "standup") in
  fst (deleteMeeting MemWorld memCalendar w0 "standup") = Returned tt
  /\ deleteMeeting MemWorld memCalendar w "standup"
     = (Thrown (ErrorMsg "Failed to delete meeting"), w)
  /\ deleteMeeting MemWorld memCalendar w "standup"
     = (Thrown (ErrorMsg "Failed to delete meeting"), w).
Proof.
  intros standup w0 w. split; [reflexivity|].
  apply (delete_failure_is_generic_both_times MemWorld memCalendar w w w
           "standup" gone gone); reflexivity.
Defined.

(** ** More on the scanner: free slots, days of the week, empty ranges *)

Lemma In_insertByStart p x l :
  In x (insertByStart p l) <-> x = p \/ In x l.
Proof.
  induction l as [|q l IH]; simpl.
  - intuition.
  - destruct (busy_start p <=? busy_start q); simpl; rewrite ?IH; intuition.
Qed.

Lemma In_sortByStart x l : In x (sortByStart l) <-> In x l.
Proof.
  induction l as [|p l IH]; simpl; [tauto|].
  rewrite In_insertByStart, IH. intuition.
Qed.

Section LoopDays.

Variable tzdata : string -> Z -> Z.
Variable localZone : string.
Variable busyPeriods : list Period.
Variable endDate : Z.
Variables slotDuration bufferBeforeMs bufferAfterMs : Z.
Variables startHour endHour : Z.
Variable excluded : option (list Z).
Variables isSingleDaySearch userSpecifiedEndHour : bool.
Variable tz : string.

(** A slot is pushed only on a day that is not excluded, and on a Saturday
    or a Sunday only in a single-day search. *)
Lemma scanStep_pushed_day st :
  let step := scanStep tzdata localZone busyPeriods slotDuration bufferBeforeMs
                bufferAfterMs startHour endHour excluded isSingleDaySearch
                userSpecifiedEndHour tz in
  freeSlots (step st) = freeSlots st
  \/ (freeSlots (step st)
      = freeSlots st ++ [ {| slot_start := currentTime st;
                             slot_end := currentTime st + slotDuration;
                             slot_available := true |} ]
      /\ includesDay excluded (getDayInTimezone tzdata (currentTime st) tz) = false
      /\ (isSingleDaySearch = false ->
          getDayInTimezone tzdata (currentTime st) tz <> 0
          /\ getDayInTimezone tzdata (currentTime st) tz <> 6)).
Proof.
  cbv zeta. unfold scanStep. cbv zeta.
  destruct (includesDay excluded _) eqn:Ex; [left; reflexivity|].
  destruct (negb isSingleDaySearch && _) eqn:Ewe; [left; reflexivity|].
  destruct ((_ <? startHour) || (_ >? endHour)) eqn:Eh.
  { left. destruct (_ >? endHour); reflexivity. }
  destruct (negb userSpecifiedEndHour && _) eqn:Eend; [left; reflexivity|].
  simpl. destruct (isSlotFree _ _ _); [right|left; reflexivity].
  split; [reflexivity|]. split; [reflexivity|].
  intros Hs. rewrite Hs in Ewe. simpl in Ewe.
  apply orb_false_iff in Ewe. destruct Ewe as [E0 E6].
  apply Z.eqb_neq in E0. apply Z.eqb_neq in E6. auto.
Qed.

Lemma scanLoop_days fuel st st' :
  let P := fun s =>
    slot_available s = true
    /\ includesDay excluded (getDayInTimezone tzdata (slot_start s) tz) = false
    /\ (isSingleDaySearch = false ->
        getDayInTimezone tzdata (slot_start s) tz <> 0
        /\ getDayInTimezone tzdata (slot_start s) tz <> 6) in
  Forall P (freeSlots st) ->
  scanLoop tzdata localZone busyPeriods endDate slotDuration bufferBeforeMs
    bufferAfterMs startHour endHour excluded isSingleDaySearch
    userSpecifiedEndHour tz fuel st = Some st' ->
  Forall P (freeSlots st').
Proof.
  intros P H0 Hrun.
  apply (scanLoop_invariant tzdata localZone busyPeriods endDate slotDuration
           bufferBeforeMs bufferAfterMs startHour endHour excluded
           isSingleDaySearch userSpecifiedEndHour tz
           (fun s => Forall P (freeSlots s))) in Hrun; [tauto| |exact H0].
  intros s Hs _. destruct (scanStep_pushed_day s) as [E|[E [Hd Hw]]]; rewrite E.
  - exact Hs.
  - apply Forall_app. split; [exact Hs|].
    constructor; [|constructor]. unfold P. simpl. auto.
Qed.

End LoopDays.

(** X1: a slot returned by [calculateFreeSlotsAdvanced] is marked available,
    ends [duration] minutes after it starts and, widened by the two buffers,
    meets no busy period: each busy period ends at or before the buffered
    start or starts at or after the buffered end. *)
Theorem returned_slots_avoid_busy_periods :
  forall tzdata localZone now fuel busyPeriods startDate endDate duration
         options r s busy,
    calculateFreeSlotsAdvanced tzdata localZone now fuel busyPeriods
      startDate endDate duration options = Some r ->
    In s r ->
    In busy busyPeriods ->
    busy_start busy < busy_end busy ->
    0 < bufferBeforeOf options + duration * 60 * 1000 + bufferAfterOf options ->
    slot_end s = slot_start s + duration * 60 * 1000
    /\ (slot_start s + duration * 60 * 1000 + bufferAfterOf options
          <= busy_start busy
        \/ busy_end busy <= slot_start s - bufferBeforeOf options).
Proof.
  intros tzdata localZone now fuel busyPeriods startDate endDate duration
         options r s busy Hr Hin Hb Hwf Hpos.
  apply calc_scan in Hr. destruct Hr as [st [Hst ->]].
  apply In_firstn_In in Hin.
  destruct (scanAdvanced_checked _ _ _ _ _ _ _ _ fuel st Hst) as [[_ Hall] _].
  rewrite Forall_forall in Hall. apply Hall in Hin.
  destruct Hin as [_ [Hend [_ [_ Hfree]]]]. split; [exact Hend|].
  rewrite isSlotFree_iff in Hfree.
  assert (Hb' : In busy (sortByStart busyPeriods)) by (apply In_sortByStart; exact Hb).
  specialize (Hfree busy Hb').
  destruct (Z_le_gt_dec (slot_start s + duration * 60 * 1000 + bufferAfterOf options)
              (busy_start busy)); [left; assumption|].
  destruct (Z_le_gt_dec (busy_end busy) (slot_start s - bufferBeforeOf options));
    [right; assumption|].
  assert (Ho : overlapsBusy (slot_start s - bufferBeforeOf options)
                 (slot_start s + duration * 60 * 1000 + bufferAfterOf options)
                 busy = true)
    by (apply overlapsBusy_iff; lia).
  congruence.
Qed.

(** The search of 2024-02-06 in UTC around a busy hour from 10:00. *)
Lemma returned_slots_avoid_busy_periods_witness :
  let busy := {| busy_start := utc 2024 2 6 10 0 0;
                 busy_end := utc 2024 2 6 11 0 0 |} in
  let s := {| slot_start := utc 2024 2 6 9 30 0; slot_end := utc 2024 2 6 10 0 0;
              slot_available := true |} in
  slot_end s = slot_start s + 30 * 60 * 1000
  /\ (slot_start s + 30 * 60 * 1000 + bufferAfterOf (inZone "UTC")
        <= busy_start busy
      \/ busy_end busy <= slot_start s - bufferBeforeOf (inZone "UTC")).
Proof.
  intros busy s.
  apply (returned_slots_avoid_busy_periods fixedZones "UTC" 0 100 [busy]
           (utc 2024 2 6 0 0 0) (utc 2024 2 7 0 0 0) 30 (inZone "UTC")
           (map (fun k => {| slot_start := utc 2024 2 6 0 0 0 + k * 60000;
                             slot_end := utc 2024 2 6 0 0 0 + (k + 30) * 60000;
                             slot_available := true |})
                [540; 570; 660; 690; 720])
           s busy).
  - vm_compute. reflexivity.
  - vm_compute. auto.
  - left. reflexivity.
  - vm_compute. reflexivity.
  - vm_compute. reflexivity.
Defined.

(** X2: a slot returned by [calculateFreeSlotsAdvanced] is marked available
    and never falls on a day listed in [excludeDays]; unless the search is a
    single-day search (same local date at both ends of the window, or a
    window shorter than 24 hours) it never falls on a Saturday or a
    Sunday. *)
Theorem returned_slots_on_allowed_days :
  forall tzdata localZone now fuel busyPeriods startDate endDate duration
         options r s,
    calculateFreeSlotsAdvanced tzdata localZone now fuel busyPeriods
      startDate endDate duration options = Some r ->
    In s r ->
    slot_available s = true
    /\ includesDay (optField excludeDays options)
         (getDayInTimezone tzdata (slot_start s) (zoneOf options)) = false
    /\ (singleDay tzdata startDate endDate (zoneOf options) = false ->
        getDayInTimezone tzdata (slot_start s) (zoneOf options) <> 0
        /\ getDayInTimezone tzdata (slot_start s) (zoneOf options) <> 6).
Proof.
  intros tzdata localZone now fuel busyPeriods startDate endDate duration
         options r s Hr Hin.
  apply calc_scan in Hr. destruct Hr as [st [Hst ->]].
  apply In_firstn_In in Hin.
  unfold scanAdvanced in Hst. cbv zeta in Hst.
  apply scanLoop_days in Hst; [|constructor].
  rewrite Forall_forall in Hst. exact (Hst s Hin).
Qed.

(** A window of a week from Friday 2024-02-09 in UTC: the slots of Friday
    fill the result. *)
Lemma returned_slots_on_allowed_days_witness :
  let s := {| slot_start := utc 2024 2 9 9 0 0; slot_end := utc 2024 2 9 9 30 0;
              slot_available := true |} in
  slot_available s = true
  /\ includesDay (optField excludeDays (inZone "UTC"))
       (getDayInTimezone fixedZones (slot_start s) (zoneOf (inZone "UTC"))) = false
  /\ (singleDay fixedZones (utc 2024 2 9 0 0 0) (utc 2024 2 16 0 0 0)
        (zoneOf (inZone "UTC")) = false ->
      getDayInTimezone fixedZones (slot_start s) (zoneOf (inZone "UTC")) <> 0
      /\ getDayInTimezone fixedZones (slot_start s) (zoneOf (inZone "UTC")) <> 6).
Proof.
  intros s.
  apply (returned_slots_on_allowed_days fixedZones "UTC" 0 100 []
           (utc 2024 2 9 0 0 0) (utc 2024 2 16 0 0 0) 30 (inZone "UTC")
           (map (fun k => {| slot_start := utc 2024 2 9 9 0 0 + k * 1800000;
                             slot_end := utc 2024 2 9 9 30 0 + k * 1800000;
                             slot_available := true |})
                [0; 1; 2; 3; 4])
           s).
  - vm_compute. reflexivity.
  - vm_compute. auto.
Defined.

(** X3: when the start hour exceeds the end hour ([notBefore] greater than
    [notAfter], or greater than 18 when [notAfter] is absent) the scan, for a
    start hour that is not negative, ends and returns no slot. *)
Theorem contradictory_hours_give_no_slot :
  forall tzdata localZone now busyPeriods startDate endDate duration options,
    0 <= startHourOf options ->
    endHourOf options < startHourOf options ->
    (exists fuel,
       calculateFreeSlotsAdvanced tzdata localZone now fuel busyPeriods
         startDate endDate duration options = Some [])
    /\ forall fuel r,
         calculateFreeSlotsAdvanced tzdata localZone now fuel busyPeriods
           startDate endDate duration options = Some r ->
         r = [].
Proof.
  intros tzdata localZone now busyPeriods startDate endDate duration options
         H0 Hlt.
  assert (Hall : forall fuel r,
            calculateFreeSlotsAdvanced tzdata localZone now fuel busyPeriods
              startDate endDate duration options = Some r -> r = []).
  { intros fuel r Hr. destruct r as [|s r]; [reflexivity|].
    assert (Hin : In s (s :: r)) by (left; reflexivity).
    eapply calc_checked in Hin; [|exact Hr].
    destruct Hin as [_ [_ [[Hlo Hhi] _]]]. lia. }
  split; [|exact Hall].
  destruct (calc_terminates tzdata localZone now busyPeriods startDate endDate
              duration options H0) as [fuel [r Hr]].
  exists fuel. rewrite Hr. f_equal. eapply Hall. exact Hr.
Qed.

(** A search between 20 and 18 o'clock. *)
Lemma contradictory_hours_witness :
  let options :=
    Some {| timePreference := None; notBefore := Some 20; notAfter := None;
            excludeDays := None; bufferBefore := None; bufferAfter := None;
            timezone := Some "UTC"%string |} in
  (exists fuel,
     calculateFreeSlotsAdvanced fixedZones "UTC" 0 fuel []
       (utc 2024 2 6 0 0 0) (utc 2024 2 7 0 0 0) 30 options = Some [])
  /\ forall fuel r,
       calculateFreeSlotsAdvanced fixedZones "UTC" 0 fuel []
         (utc 2024 2 6 0 0 0) (utc 2024 2 7 0 0 0) 30 options = Some r ->
       r = [].
Proof.
  intros options.
  apply (contradictory_hours_give_no_slot fixedZones "UTC" 0 []
           (utc 2024 2 6 0 0 0) (utc 2024 2 7 0 0 0) 30 options).
  - vm_compute. discriminate.
  - vm_compute. reflexivity.
Defined.

(** ** Creating and updating meetings *)

(** X4: the event [createMeeting] submits ends [duration] minutes after it
    starts, with one time zone for both ends; [updateMeeting] given a new
    start and that same duration, when it is not zero, submits the new start
    and an end as far from it, so moving a meeting keeps its length; and a
    refused insertion or patch is thrown as the fixed error of the method
    while a fulfilled insertion returns the provider's id. *)
Theorem moving_a_meeting_keeps_its_length :
  forall (W : Type) (writer : CalendarWriteApi W) (w : W)
         (requestId eventId : string) (meeting : MeetingInput) (newStart : Z),
    m_duration meeting <> 0 ->
    let body := createMeetingBody requestId meeting in
    let patch :=
      updateMeetingBody
        {| u_title := None; u_description := None; u_startTime := Some newStart;
           u_duration := Some (m_duration meeting); u_attendees := None;
           u_timeZone := m_timeZone meeting |} in
    dateTime (ins_end body) - dateTime (ins_start body)
    = m_duration meeting * 60000
    /\ timeZone (ins_end body) = timeZone (ins_start body)
    /\ (exists s e,
          p_start patch = Some s /\ p_end patch = Some e
          /\ dateTime s = newStart
          /\ dateTime e - dateTime s
             = dateTime (ins_end body) - dateTime (ins_start body)
          /\ timeZone s = timeZone (ins_start body)
          /\ timeZone e = timeZone (ins_start body))
    /\ (forall r w',
          events_insert writer body w = (r, w') ->
          createMeeting W writer requestId w meeting
          = (match r with
             | Fulfilled event_id => Returned event_id
             | Rejected _ => Thrown (ErrorMsg "Failed to create meeting")
             end, w'))
    /\ (forall updates r w',
          events_patch writer eventId (updateMeetingBody updates) w = (r, w') ->
          updateMeeting W writer w eventId updates
          = (match r with
             | Fulfilled _ => Returned tt
             | Rejected _ => Thrown (ErrorMsg "Failed to update meeting")
             end, w')).
Proof.
  intros W writer w requestId eventId meeting newStart Hd body patch.
  split; [simpl; lia|]. split; [reflexivity|]. split; [|split].
  - unfold patch, updateMeetingBody. simpl.
    apply Z.eqb_neq in Hd. rewrite Hd. simpl.
    eexists. eexists. repeat split. simpl. lia.
  - intros r w' H. unfold createMeeting. fold body. rewrite H.
    destruct r; reflexivity.
  - intros updates r w' H. unfold updateMeeting. rewrite H.
    destruct r as [[]|]; reflexivity.
Qed.

(** A review of 45 minutes moved to the afternoon. *)
Lemma moving_a_meeting_witness :
  dateTime (ins_end (createMeetingBody "r1" review))
  - dateTime (ins_start (createMeetingBody "r1" review)) = 45 * 60000
  /\ createMeeting unit refusingWriter "r1" tt review
     = (Thrown (ErrorMsg "Failed to create meeting"), tt).
Proof.
  pose proof (moving_a_meeting_keeps_its_length unit refusingWriter tt "r1" "e1"
                review (utc 2024 2 6 14 0 0)) as H.
  assert (Hd : m_duration review <> 0) by (simpl; lia).
  destruct (H Hd) as [Hlen [_ [_ [Hcreate _]]]].
  split; [exact Hlen|].
  exact (Hcreate (Rejected unreachable) tt eq_refl).
Defined.

(** X5: [updateMeeting] changes the time of an event only when it is given
    both a start and a duration that is not zero; a duration alone, a start
    alone, a zero duration, attendees or a time zone are dropped without a
    word: the patch sent is the one sent without them.  An empty title or
    description is dropped the same way. *)
Theorem update_drops_partial_times :
  forall (title description : option string) (startTime duration : option Z)
         (attendees : option (list string)) (tz : option string),
    let patch :=
      updateMeetingBody
        {| u_title := title; u_description := description;
           u_startTime := startTime; u_duration := duration;
           u_attendees := attendees; u_timeZone := tz |} in
    let untimed :=
      updateMeetingBody
        {| u_title := title; u_description := description;
           u_startTime := None; u_duration := None;
           u_attendees := None; u_timeZone := None |} in
    (startTime = None \/ duration = None \/ duration = Some 0 <-> patch = untimed)
    /\ (p_start patch = None <-> p_end patch = None)
    /\ (title = Some EmptyString -> p_summary patch = None)
    /\ (description = Some EmptyString -> p_description patch = None).
Proof.
  intros title description startTime duration attendees tz patch untimed.
  unfold patch, untimed, updateMeetingBody. simpl.
  destruct startTime as [st|], duration as [d|]; simpl;
    try (destruct (Z.eqb_spec d 0) as [->|Hd]; simpl).
  all: repeat split; try tauto; try discriminate; try (intros ->; reflexivity).
  - intros [H|[H|H]]; try discriminate. inversion H. contradiction.
Qed.

(** ** Listing events *)

Lemma is401_eqb (z : Z) :
  match z with 401 => true | _ => false end = (z =? 401).
Proof.
  destruct z as [|p|p]; reflexivity.
Qed.

Lemma statusIs401_spec e :
  statusIs401 (ProviderExn e) = true
  <-> err_status e = Some 401 \/ err_code e = Some 401.
Proof.
  assert (Hc : match err_code e with Some 401 => true | _ => false end = true
               <-> err_code e = Some 401).
  { destruct (err_code e) as [c|]; [|split; discriminate].
    rewrite is401_eqb, Z.eqb_eq. split; congruence. }
  unfold statusIs401. destruct (err_status e) as [s|].
  - destruct (Z.eq_dec s 401) as [->|Hs].
    + split; auto.
    + assert (Hm : match s with
                   | 401 => true
                   | _ => match err_code e with Some 401 => true | _ => false end
                   end
                   = match err_code e with Some 401 => true | _ => false end).
      { destruct s as [|p|p]; try reflexivity.
        repeat (destruct p as [p|p|]; try reflexivity). congruence. }
      rewrite Hm, Hc. split; [auto|]. intros [H|H]; [congruence|exact H].
  - rewrite Hc. split; [auto|]. intros [H|H]; [discriminate|exact H].
Qed.

(** X6: when the provider refuses the listing, [getEvents] returns no list:
    it throws the reconnect message exactly when the refusal carries status
    or code 401, and a message that starts with
    [Failed to fetch calendar events: ] otherwise; when the provider answers,
    it returns one event per item, in the provider's order, with the same
    ids, an absent list of attendees read as the empty one. *)
Theorem getEvents_outcomes :
  forall (W : Type) (calendar : CalendarApi W) (w : W) (timeMin timeMax : Z),
    (forall e,
       events_list calendar
         {| req_timeMin := timeMin; req_timeMax := timeMax; req_q := None |} w
       = Rejected e ->
       (err_status e = Some 401 \/ err_code e = Some 401 ->
        getEvents W calendar w timeMin timeMax
        = Thrown (ErrorMsg
            "Calendar authentication expired. Please reconnect your Google account."))
       /\ (err_status e <> Some 401 /\ err_code e <> Some 401 ->
           getEvents W calendar w timeMin timeMax
           = Thrown (ErrorMsg
               (String.append "Failed to fetch calendar events: " (err_details e)))))
    /\ (forall items,
          events_list calendar
            {| req_timeMin := timeMin; req_timeMax := timeMax; req_q := None |} w
          = Fulfilled items ->
          exists events,
            getEvents W calendar w timeMin timeMax = Returned events
            /\ events = map toCalendarEvent (nullish items [])
            /\ map ev_id events = map raw_id (nullish items [])
            /\ map ev_end events = map raw_end (nullish items [])).
Proof.
  intros W calendar w timeMin timeMax. split.
  - intros e He. unfold getEvents. rewrite He. cbn [await bind tryCatch].
    split.
    + intros H. apply statusIs401_spec in H. rewrite H. reflexivity.
    + intros [H1 H2]. destruct (statusIs401 (ProviderExn e)) eqn:E.
      * apply statusIs401_spec in E. tauto.
      * reflexivity.
  - intros items He. unfold getEvents. rewrite He. cbn [await bind tryCatch].
    eexists. split; [reflexivity|]. split; [reflexivity|].
    rewrite !map_map. split; reflexivity.
Qed.

(** The in-memory provider out of reach: no 401, no list. *)
Lemma getEvents_witness :
  getEvents MemWorld memCalendar
    {| mem_events := []; mem_deleted := []; mem_reachable := false;
       mem_busy := [] |} 0 1000
  = Thrown (ErrorMsg "Failed to fetch calendar events: ENOTFOUND").
Proof.
  pose proof (getEvents_outcomes MemWorld memCalendar
                {| mem_events := []; mem_deleted := []; mem_reachable := false;
                   mem_busy := [] |} 0 1000) as [Hrej _].
  destruct (Hrej unreachable eq_refl) as [_ H].
  apply H. split; discriminate.
Defined.

Lemma sortByEndDesc_head (l : list CalendarEvent) :
  match sortByEndDesc l with
  | [] => l = []
  | e :: _ => In e l /\ forall x, In x l -> ev_end x <= ev_end e
  end.
Proof.
  induction l as [|a l IH]; simpl; [reflexivity|].
  destruct (sortByEndDesc l) as [|h t]; simpl.
  - subst l. split; [auto|]. intros x [->|[]]. lia.
  - destruct IH as [Hin Hmax].
    destruct (ev_end h <=? ev_end a) eqn:E.
    + apply Z.leb_le in E. split; [auto|].
      intros x [->|Hx]; [lia|]. specialize (Hmax x Hx). lia.
    + apply Z.leb_gt in E. split; [auto|].
      intros x [->|Hx]; [lia|]. auto.
Qed.

(** X7: when the provider answers the listing of the day,
    [getLastMeetingOfDay] returns null exactly when the day has no event,
    and otherwise one of the day's events whose end is the latest. *)
Theorem getLastMeetingOfDay_is_latest :
  forall tzdata localZone (W : Type) (calendar : CalendarApi W) (w : W)
         (date : Z) (timezone : option string) items,
    let tz := nullish timezone "Asia/Kolkata"%string in
    events_list calendar
      {| req_timeMin := setHourInTimezone tzdata localZone date 0 tz;
         req_timeMax := setHourInTimezone tzdata localZone date 23 tz
                        + 59 * 60 * 1000 + 59 * 1000 + 999;
         req_q := None |} w = Fulfilled items ->
    let events := map toCalendarEvent (nullish items []) in
    (events = [] ->
     getLastMeetingOfDay tzdata localZone W calendar w date timezone
     = Returned None)
    /\ (events <> [] ->
        exists last,
          getLastMeetingOfDay tzdata localZone W calendar w date timezone
          = Returned (Some last)
          /\ In last events
          /\ forall x, In x events -> ev_end x <= ev_end last).
Proof.
  intros tzdata localZone W calendar w date timezone items tz He events.
  unfold getLastMeetingOfDay, getEvents. cbv zeta. fold tz. rewrite He.
  cbn [await bind tryCatch].
  change (map _ (nullish items [])) with events.
  pose proof (sortByEndDesc_head events) as Hh.
  destruct events as [|e0 rest] eqn:Eev.
  - split; [reflexivity|]. intros H. exfalso. apply H. reflexivity.
  - split; [discriminate|]. intros _.
    cbn [List.length Nat.eqb].
    destruct (sortByEndDesc (e0 :: rest)) as [|last t] eqn:Es.
    + discriminate.
    + exists last. simpl. destruct Hh as [Hin Hmax]. auto.
Qed.

(** The day of 2024-02-06 with a stand-up and a later review. *)
Lemma getLastMeetingOfDay_witness :
  let standup := {| raw_id := "standup"; raw_summary := None;
                    raw_description := None; raw_start := utc 2024 2 6 9 0 0;
                    raw_end := utc 2024 2 6 9 30 0; raw_attendees := None |} in
  let late := {| raw_id := "review"; raw_summary := None;
                 raw_description := None; raw_start := utc 2024 2 6 16 0 0;
                 raw_end := utc 2024 2 6 17 0 0; raw_attendees := None |} in
  let w := {| mem_events := [standup; late]; mem_deleted := [];
              mem_reachable := true; mem_busy := [] |} in
  exists last,
    getLastMeetingOfDay fixedZones "UTC" MemWorld memCalendar w
      (utc 2024 2 6 12 0 0) (Some "UTC"%string) = Returned (Some last)
    /\ In last (map toCalendarEvent [standup; late])
    /\ forall x, In x (map toCalendarEvent [standup; late]) ->
                 ev_end x <= ev_end last.
Proof.
  intros standup late w.
  apply (getLastMeetingOfDay_is_latest fixedZones "UTC" MemWorld memCalendar w
           (utc 2024 2 6 12 0 0) (Some "UTC"%string) (Some [standup; late])).
  - vm_compute. reflexivity.
  - discriminate.
Defined.

(** X8: in a zone of one offset, with the process's clock whole hours away
    from it, the listing that [getLastMeetingOfDay] asks for runs from local
    midnight to 23:59:59.999 of the local day of [date]; so two dates of one
    local day get the same answer. *)
Theorem getLastMeetingOfDay_covers_the_local_day :
  forall tzdata localZone (W : Type) (calendar : CalendarApi W) (w : W)
         (date date' : Z) (tz : string) (off lo : Z),
    (forall t, tzdata tz t = off) ->
    (forall t, tzdata localZone t = lo) ->
    (lo - off) mod 60 = 0 ->
    getDateStringInTimezone tzdata date tz
    = getDateStringInTimezone tzdata date' tz ->
    let day := getDateStringInTimezone tzdata date tz in
    wallClock tzdata tz (setHourInTimezone tzdata localZone date 0 tz)
    = day * 86400000
    /\ wallClock tzdata tz
         (setHourInTimezone tzdata localZone date 23 tz
          + 59 * 60 * 1000 + 59 * 1000 + 999)
       = day * 86400000 + 86399999
    /\ getLastMeetingOfDay tzdata localZone W calendar w date (Some tz)
       = getLastMeetingOfDay tzdata localZone W calendar w date' (Some tz).
Proof.
  intros tzdata localZone W calendar w date date' tz off lo Hoff Hlo Hal Hday day.
  assert (Hset : forall d h,
            setHourInTimezone tzdata localZone d h tz
            = getDateStringInTimezone tzdata d tz * 86400000 + h * 3600000
              - off * 60000).
  { intros d h.
    pose proof (setHourInTimezone_aligned tzdata localZone d h tz off (Hoff d)) as H.
    rewrite Hlo in H. specialize (H Hal).
    unfold getDateStringInTimezone, wallClock. rewrite Hoff. lia. }
  split; [|split].
  - unfold wallClock. rewrite Hoff, Hset. fold day. lia.
  - unfold wallClock. rewrite Hoff, Hset. fold day. lia.
  - unfold getLastMeetingOfDay. cbv zeta. simpl nullish.
    rewrite !Hset, Hday. reflexivity.
Qed.

(** Noon and 22:15 of 2024-02-06 in Asia/Kolkata, the process there too. *)
Lemma getLastMeetingOfDay_local_day_witness :
  let w := {| mem_events := []; mem_deleted := []; mem_reachable := true;
              mem_busy := [] |} in
  wallClock fixedZones "Asia/Kolkata"
    (setHourInTimezone fixedZones "Asia/Kolkata" (ist 2024 2 6 12 0 0) 0
       "Asia/Kolkata")
  = getDateStringInTimezone fixedZones (ist 2024 2 6 12 0 0) "Asia/Kolkata"
    * 86400000
  /\ wallClock fixedZones "Asia/Kolkata"
       (setHourInTimezone fixedZones "Asia/Kolkata" (ist 2024 2 6 12 0 0) 23
          "Asia/Kolkata" + 59 * 60 * 1000 + 59 * 1000 + 999)
     = getDateStringInTimezone fixedZones (ist 2024 2 6 12 0 0) "Asia/Kolkata"
       * 86400000 + 86399999
  /\ getLastMeetingOfDay fixedZones "Asia/Kolkata" MemWorld memCalendar w
       (ist 2024 2 6 12 0 0) (Some "Asia/Kolkata"%string)
     = getLastMeetingOfDay fixedZones "Asia/Kolkata" MemWorld memCalendar w
         (ist 2024 2 6 22 15 0) (Some "Asia/Kolkata"%string).
Proof.
  intros w.
  apply (getLastMeetingOfDay_covers_the_local_day fixedZones "Asia/Kolkata"
           MemWorld memCalendar w (ist 2024 2 6 12 0 0) (ist 2024 2 6 22 15 0)
           "Asia/Kolkata" 330 330).
  - intros t. reflexivity.
  - intros t. reflexivity.
  - reflexivity.
  - vm_compute. reflexivity.
Defined.

(** ** [findAvailableSlots] *)



(** ** Day boundaries of the routes *)

(** X10: in a zone of one offset between UTC-11:00 and UTC+12:59,
    [getStartOfDayInTimezone] returns the instant at which the zone's clock
    shows, on the local date of [date], as many minutes past midnight as the
    offset has beyond whole hours: 00:00 for an offset of whole hours, 00:30
    for Asia/Kolkata.  For an offset of whole hours [date] lies between the
    start and the end of day returned, which are the first and the last
    millisecond of its local date. *)
Theorem start_of_day_off_by_the_minutes_of_the_offset :
  forall tzdata (date : Z) (tz : string) (off : Z),
    (forall t, tzdata tz t = off) ->
    -11 <= off / 60 <= 12 ->
    let day := getDateStringInTimezone tzdata date tz in
    wallClock tzdata tz (getStartOfDayInTimezone tzdata date tz)
    = day * 86400000 + (off mod 60) * 60000
    /\ (off mod 60 = 0 ->
        getStartOfDayInTimezone tzdata date tz <= date
          <= getEndOfDayInTimezone tzdata date tz
        /\ wallClock tzdata tz (getStartOfDayInTimezone tzdata date tz)
           = day * 86400000
        /\ wallClock tzdata tz (getEndOfDayInTimezone tzdata date tz)
           = day * 86400000 + 86399999).
Proof.
  intros tzdata date tz off Hoff Hrange day.
  assert (Hq := Z.div_mod off 60 ltac:(lia)).
  assert (Hr := Z.mod_pos_bound off 60 ltac:(lia)).
  assert (Hhour : getHourInTimezone tzdata (day * 86400000) tz = (off / 60) mod 24).
  { unfold getHourInTimezone, wallClock. rewrite Hoff.
    replace (day * 86400000 + off * 60000)
      with ((off mod 60) * 60000 + (day * 24 + off / 60) * 3600000) by lia.
    rewrite Z.div_add by lia.
    rewrite (Z.div_small ((off mod 60) * 60000)) by lia.
    replace (0 + (day * 24 + off / 60)) with (off / 60 + day * 24) by lia.
    apply Z.mod_add. lia. }
  assert (Hstart : getStartOfDayInTimezone tzdata date tz
                   = day * 86400000 - (off / 60) * 3600000).
  { unfold getStartOfDayInTimezone. cbv zeta. fold day. rewrite Hhour.
    destruct (Z_lt_ge_dec (off / 60) 0) as [Hneg|Hpos].
    - assert (E : (off / 60) mod 24 = off / 60 + 24).
      { symmetry. apply Z.mod_unique with (q := -1); lia. }
      rewrite E.
      replace (off / 60 + 24 =? 0) with false by (symmetry; apply Z.eqb_neq; lia).
      replace (off / 60 + 24 >? 12) with true
        by (symmetry; rewrite Z.gtb_ltb; apply Z.ltb_lt; lia).
      lia.
    - rewrite (Z.mod_small (off / 60) 24) by lia.
      destruct (Z.eqb_spec (off / 60) 0) as [E0|E0]; [lia|].
      replace (off / 60 >? 12) with false
        by (symmetry; rewrite Z.gtb_ltb; apply Z.ltb_ge; lia).
      lia. }
  split.
  - unfold wallClock. rewrite Hoff, Hstart. lia.
  - intros Hz. unfold getEndOfDayInTimezone. cbv zeta.
    unfold wallClock. rewrite !Hoff, Hstart.
    assert (Hd := Z.div_mod (date + off * 60000) 86400000 ltac:(lia)).
    assert (Hb := Z.mod_pos_bound (date + off * 60000) 86400000 ltac:(lia)).
    unfold day, getDateStringInTimezone, wallClock in *. rewrite Hoff in *.
    lia.
Qed.

(** Noon of 2024-02-06 in Asia/Kolkata: the day is taken to start at
    00:30. *)
Lemma start_of_day_witness :
  wallClock fixedZones "Asia/Kolkata"
    (getStartOfDayInTimezone fixedZones (ist 2024 2 6 12 0 0) "Asia/Kolkata")
  = getDateStringInTimezone fixedZones (ist 2024 2 6 12 0 0) "Asia/Kolkata"
    * 86400000 + (330 mod 60) * 60000
  /\ getStartOfDayInTimezone fixedZones (ist 2024 2 6 12 0 0) "Asia/Kolkata"
     = ist 2024 2 6 0 30 0.
Proof.
  split; [|vm_compute; reflexivity].
  apply (start_of_day_off_by_the_minutes_of_the_offset fixedZones
           (ist 2024 2 6 12 0 0) "Asia/Kolkata" 330).
  - intros t. reflexivity.
  - vm_compute. split; discriminate.
Defined.

(** X11: in a zone of one offset from UTC+13:00 to UTC+14:59 the start of
    day returned lies on the next local date, after [date] itself. *)
Theorem start_of_day_east_of_plus_thirteen_is_the_next_day :
  forall tzdata (date : Z) (tz : string) (off : Z),
    (forall t, tzdata tz t = off) ->
    13 <= off / 60 <= 14 ->
    let day := getDateStringInTimezone tzdata date tz in
    wallClock tzdata tz (getStartOfDayInTimezone tzdata date tz)
    = (day + 1) * 86400000 + (off mod 60) * 60000
    /\ date < getStartOfDayInTimezone tzdata date tz.
Proof.
  intros tzdata date tz off Hoff Hrange day.
  assert (Hq := Z.div_mod off 60 ltac:(lia)).
  assert (Hr := Z.mod_pos_bound off 60 ltac:(lia)).
  assert (Hhour : getHourInTimezone tzdata (day * 86400000) tz = off / 60).
  { unfold getHourInTimezone, wallClock. rewrite Hoff.
    replace (day * 86400000 + off * 60000)
      with ((off mod 60) * 60000 + (day * 24 + off / 60) * 3600000) by lia.
    rewrite Z.div_add by lia.
    rewrite (Z.div_small ((off mod 60) * 60000)) by lia.
    replace (0 + (day * 24 + off / 60)) with (off / 60 + day * 24) by lia.
    rewrite Z.mod_add by lia. apply Z.mod_small. lia. }
  assert (Hstart : getStartOfDayInTimezone tzdata date tz
                   = day * 86400000 - (off / 60 - 24) * 3600000).
  { unfold getStartOfDayInTimezone. cbv zeta. fold day. rewrite Hhour.
    destruct (Z.eqb_spec (off / 60) 0) as [E0|E0]; [lia|].
    replace (off / 60 >? 12) with true
      by (symmetry; rewrite Z.gtb_ltb; apply Z.ltb_lt; lia).
    lia. }
  split.
  - unfold wallClock. rewrite Hoff, Hstart. lia.
  - rewrite Hstart.
    assert (Hd := Z.div_mod (date + off * 60000) 86400000 ltac:(lia)).
    assert (Hb := Z.mod_pos_bound (date + off * 60000) 86400000 ltac:(lia)).
    unfold day, getDateStringInTimezone, wallClock in *. rewrite Hoff in *.
    lia.
Qed.

(** A zone at UTC+13:00, at 10:00 UTC of 2024-02-06. *)
Lemma start_of_day_next_day_witness :
  utc 2024 2 6 10 0 0
  < getStartOfDayInTimezone (fun _ _ => 780) (utc 2024 2 6 10 0 0)
      "Pacific/Tongatapu".
Proof.
  apply (start_of_day_east_of_plus_thirteen_is_the_next_day (fun _ _ => 780)
           (utc 2024 2 6 10 0 0) "Pacific/Tongatapu" 780).
  - intros t. reflexivity.
  - vm_compute. split; discriminate.
Defined.

(** ** Week ranges of the agent *)

Lemma day_number_shift tzdata tz off t k :
  (forall u, tzdata tz u = off) ->
  getDateStringInTimezone tzdata (t + k * 86400000) tz
  = getDateStringInTimezone tzdata t tz + k.
Proof.
  intros Hoff. unfold getDateStringInTimezone, wallClock. rewrite !Hoff.
  replace (t + k * 86400000 + off * 60000)
    with (t + off * 60000 + k * 86400000) by lia.
  apply Z.div_add. lia.
Qed.

(** X12: when the user's zone and the process's zone have one and the same
    offset, the range of [getNextWeekRange] starts on a Monday, one to seven
    days after today's date, and ends on the Sunday six days later. *)
Theorem next_week_is_monday_to_sunday :
  forall tzdata localZone (today : Z) (tz : string) (off : Z),
    (forall t, tzdata tz t = off) ->
    (forall t, tzdata localZone t = off) ->
    let day := getDateStringInTimezone tzdata today tz in
    let first := fst (getNextWeekRange tzdata localZone today tz) in
    let last := snd (getNextWeekRange tzdata localZone today tz) in
    (first + 4) mod 7 = 1
    /\ day < first <= day + 7
    /\ last = first + 6
    /\ (last + 4) mod 7 = 0.
Proof.
  intros tzdata localZone today tz off Hz Hl day first last.
  assert (Hdow : getDay tzdata localZone today = (day + 4) mod 7).
  { unfold getDay, getDayInTimezone, day, getDateStringInTimezone, wallClock.
    rewrite Hz, Hl. reflexivity. }
  assert (Hb := Z.mod_pos_bound (day + 4) 7 ltac:(lia)).
  assert (Hd := Z.div_mod (day + 4) 7 ltac:(lia)).
  assert (Hfirst : first = day + (if getDay tzdata localZone today =? 0 then 1
                                  else 8 - getDay tzdata localZone today)).
  { unfold first, getNextWeekRange, addDays. cbv zeta. cbn [fst snd].
    apply (day_number_shift tzdata tz off _ _ Hz). }
  assert (Hlast : last = first + 6).
  { unfold last, first, getNextWeekRange, addDays. cbv zeta. cbn [fst snd].
    apply (day_number_shift tzdata tz off _ _ Hz). }
  rewrite Hdow in Hfirst.
  assert (Hmon : (first + 4) mod 7 = 1).
  { rewrite Hfirst. destruct (Z.eqb_spec ((day + 4) mod 7) 0) as [E|E].
    - symmetry. apply Z.mod_unique with (q := (day + 4) / 7); lia.
    - symmetry. apply Z.mod_unique with (q := (day + 4) / 7 + 1); lia. }
  split; [exact Hmon|]. split.
  - rewrite Hfirst. destruct (Z.eqb_spec ((day + 4) mod 7) 0); lia.
  - split; [exact Hlast|]. rewrite Hlast.
    assert (Hd1 := Z.div_mod (first + 4) 7 ltac:(lia)).
    symmetry. apply Z.mod_unique with (q := (first + 4) / 7 + 1); lia.
Qed.

(** Tuesday 2024-02-06 in UTC: the next week is 02-12 to 02-18. *)
Lemma next_week_witness :
  (fst (getNextWeekRange fixedZones "UTC" (utc 2024 2 6 10 0 0) "UTC") + 4) mod 7 = 1
  /\ getDateStringInTimezone fixedZones (utc 2024 2 6 10 0 0) "UTC"
     < fst (getNextWeekRange fixedZones "UTC" (utc 2024 2 6 10 0 0) "UTC")
     <= getDateStringInTimezone fixedZones (utc 2024 2 6 10 0 0) "UTC" + 7
  /\ snd (getNextWeekRange fixedZones "UTC" (utc 2024 2 6 10 0 0) "UTC")
     = fst (getNextWeekRange fixedZones "UTC" (utc 2024 2 6 10 0 0) "UTC") + 6
  /\ (snd (getNextWeekRange fixedZones "UTC" (utc 2024 2 6 10 0 0) "UTC") + 4)
       mod 7 = 0.
Proof.
  apply (next_week_is_monday_to_sunday fixedZones "UTC" (utc 2024 2 6 10 0 0)
           "UTC" 0); intros t; reflexivity.
Defined.

(** X13: under the same condition the range of [getThisWeekRange] runs from
    a Sunday to the Saturday six days later and holds today's date. *)
Theorem this_week_is_sunday_to_saturday :
  forall tzdata localZone (today : Z) (tz : string) (off : Z),
    (forall t, tzdata tz t = off) ->
    (forall t, tzdata localZone t = off) ->
    let day := getDateStringInTimezone tzdata today tz in
    let first := fst (getThisWeekRange tzdata localZone today tz) in
    let last := snd (getThisWeekRange tzdata localZone today tz) in
    (first + 4) mod 7 = 0
    /\ last = first + 6
    /\ first <= day <= last.
Proof.
  intros tzdata localZone today tz off Hz Hl day first last.
  assert (Hdow : getDay tzdata localZone today = (day + 4) mod 7).
  { unfold getDay, getDayInTimezone, day, getDateStringInTimezone, wallClock.
    rewrite Hz, Hl. reflexivity. }
  assert (Hb := Z.mod_pos_bound (day + 4) 7 ltac:(lia)).
  assert (Hd := Z.div_mod (day + 4) 7 ltac:(lia)).
  assert (Hfirst : first = day + - getDay tzdata localZone today).
  { unfold first, getThisWeekRange, addDays. cbv zeta. cbn [fst snd].
    apply (day_number_shift tzdata tz off _ _ Hz). }
  assert (Hlast : last = first + 6).
  { unfold last, first, getThisWeekRange, addDays. cbv zeta. cbn [fst snd].
    apply (day_number_shift tzdata tz off _ _ Hz). }
  rewrite Hdow in Hfirst. split.
  - rewrite Hfirst. symmetry. apply Z.mod_unique with (q := (day + 4) / 7); lia.
  - split; [exact Hlast|]. lia.
Qed.

(** Tuesday 2024-02-06 in UTC: this week is 02-04 to 02-10. *)
Lemma this_week_witness :
  (fst (getThisWeekRange fixedZones "UTC" (utc 2024 2 6 10 0 0) "UTC") + 4) mod 7 = 0
  /\ snd (getThisWeekRange fixedZones "UTC" (utc 2024 2 6 10 0 0) "UTC")
     = fst (getThisWeekRange fixedZones "UTC" (utc 2024 2 6 10 0 0) "UTC") + 6
  /\ fst (getThisWeekRange fixedZones "UTC" (utc 2024 2 6 10 0 0) "UTC")
     <= getDateStringInTimezone fixedZones (utc 2024 2 6 10 0 0) "UTC"
     <= snd (getThisWeekRange fixedZones "UTC" (utc 2024 2 6 10 0 0) "UTC").
Proof.
  apply (this_week_is_sunday_to_saturday fixedZones "UTC" (utc 2024 2 6 10 0 0)
           "UTC" 0); intros t; reflexivity.
Defined.



(** ** The time parser *)

Lemma toLowerCase_app (a b : string) :
  toLowerCase (a ++ b) = (toLowerCase a ++ toLowerCase b)%string.
Proof. induction a as [|c a IH]; simpl; [reflexivity|]. rewrite IH. reflexivity. Qed.

Lemma prefix_app (p b : string) : String.prefix p (p ++ b) = true.
Proof.
  induction p as [|c p IH]; simpl; [destruct b; reflexivity|].
  destruct (ascii_dec c c) as [_|H]; [exact IH|contradiction].
Qed.

Lemma includes_skip (a s p : string) :
  includes s p = true -> includes (a ++ s) p = true.
Proof.
  intros H. induction a as [|c a IH]; simpl; [exact H|].
  rewrite IH. apply orb_true_r.
Qed.

Lemma includes_middle (a p b : string) : includes (a ++ p ++ b) p = true.
Proof.
  apply includes_skip. destruct p as [|c p]; simpl.
  - destruct b; reflexivity.
  - destruct (ascii_dec c c) as [_|H]; [|contradiction].
    rewrite prefix_app. reflexivity.
Qed.

(** X15: any text that holds the letters "am", in either case and wherever
    they stand ("team", "Sam", "10 AM"), is read as a wish for the morning,
    whatever else it says. *)
Theorem am_anywhere_means_morning :
  forall (before am after : string),
    toLowerCase am = "am"%string ->
    detectTimePreference (before ++ am ++ after) = morning.
Proof.
  intros before am after Ham. unfold detectTimePreference. cbv zeta.
  rewrite !toLowerCase_app, Ham, includes_middle.
  rewrite !orb_true_r. reflexivity.
Qed.

(** "Thursday afternoon with Sam". *)
Lemma am_anywhere_witness :
  detectTimePreference "Thursday afternoon with Sam" = morning.
Proof.
  apply (am_anywhere_means_morning "Thursday afternoon with S" "am" "").
  reflexivity.
Defined.

(** X16: [parseTimeExpression] returns null exactly when the parser of
    dates finds nothing, and what it returns depends on the text and on the
    start of the first result only: the end of the range the parser found,
    and its further results, are never used. *)
Theorem parsed_range_ignores_the_parsed_end :
  forall tzdata localZone (chrono chrono' : string -> Z -> list ChronoResult)
         (text : string) (referenceDate : Z),
    (parseTimeExpression tzdata localZone chrono text referenceDate = None
     <-> chrono text referenceDate = [])
    /\ (map chrono_start (firstn 1 (chrono text referenceDate))
        = map chrono_start (firstn 1 (chrono' text referenceDate)) ->
        parseTimeExpression tzdata localZone chrono text referenceDate
        = parseTimeExpression tzdata localZone chrono' text referenceDate).
Proof.
  intros tzdata localZone chrono chrono' text referenceDate.
  unfold parseTimeExpression. split.
  - destruct (chrono text referenceDate); split; try reflexivity; discriminate.
  - destruct (chrono text referenceDate) as [|r l],
             (chrono' text referenceDate) as [|r' l']; simpl;
      try reflexivity; try discriminate.
    intros H. inversion H as [Hs]. rewrite Hs.
    destruct (detectTimePreference text); reflexivity.
Qed.

(** "tomorrow from 2pm to 4pm": the 4pm is lost. *)
Lemma parsed_range_witness :
  let chrono := fun (_ : string) (_ : Z) =>
    [ {| chrono_start := utc 2024 2 7 14 0 0;
         chrono_end := Some (utc 2024 2 7 16 0 0) |} ] in
  let chrono' := fun (_ : string) (_ : Z) =>
    [ {| chrono_start := utc 2024 2 7 14 0 0; chrono_end := None |} ] in
  parseTimeExpression fixedZones "UTC" chrono "tomorrow from 2pm to 4pm"
    (utc 2024 2 6 10 0 0)
  = parseTimeExpression fixedZones "UTC" chrono' "tomorrow from 2pm to 4pm"
      (utc 2024 2 6 10 0 0).
Proof.
  intros chrono chrono'.
  apply (proj2 (parsed_range_ignores_the_parsed_end fixedZones "UTC" chrono
                  chrono' "tomorrow from 2pm to 4pm" (utc 2024 2 6 10 0 0))).
  reflexivity.
Defined.

Section TimeOfDayFacts.

Variable tzdata : string -> Z -> Z.
Variable localZone : string.
Variable lo : Z.
Hypothesis fixedLocal : forall t, tzdata localZone t = lo.

Lemma setHours_eq date h m :
  setHours tzdata localZone date h m
  = (date + lo * 60000) / 86400000 * 86400000 - lo * 60000
    + h * 3600000 + m * 60000.
Proof.
  unfold setHours, wallClock. rewrite fixedLocal.
  pose proof (Z.div_mod (date + lo * 60000) 86400000 ltac:(lia)). lia.
Qed.

Lemma setHours_setHours date h m h' m' :
  0 <= h * 3600000 + m * 60000 < 86400000 ->
  setHours tzdata localZone (setHours tzdata localZone date h m) h' m'
  = setHours tzdata localZone date h' m'.
Proof.
  intros Hr. rewrite (setHours_eq (setHours tzdata localZone date h m)).
  rewrite !setHours_eq.
  replace ((date + lo * 60000) / 86400000 * 86400000 - lo * 60000
           + h * 3600000 + m * 60000 + lo * 60000)
    with (h * 3600000 + m * 60000
          + (date + lo * 60000) / 86400000 * 86400000) by lia.
  rewrite Z.div_add by lia. rewrite (Z.div_small _ _ Hr). lia.
Qed.

End TimeOfDayFacts.

(** X17: for a text without the word "week", with the process's zone of one
    offset, the range returned lies on the process's local day of the parsed
    start and runs 09:00-12:00 for a morning, 13:00-17:00 for an afternoon,
    17:00-21:00 for an evening and 09:00-17:00 otherwise: the time of day
    that was parsed is replaced. *)
Theorem parsed_range_is_a_fixed_window_of_the_day :
  forall tzdata localZone (chrono : string -> Z -> list ChronoResult)
         (text : string) (referenceDate lo : Z) (result : ChronoResult)
         (others : list ChronoResult),
    (forall t, tzdata localZone t = lo) ->
    includes text "week" = false ->
    chrono text referenceDate = result :: others ->
    let midnight :=
      chrono_start result
      - wallClock tzdata localZone (chrono_start result) mod 86400000 in
    let window :=
      match detectTimePreference text with
      | morning => (9, 12)
      | afternoon => (13, 17)
      | evening => (17, 21)
      | any => (9, 17)
      end in
    parseTimeExpression tzdata localZone chrono text referenceDate
    = Some {| range_startDate := midnight + fst window * 3600000;
              range_endDate := midnight + snd window * 3600000;
              range_timePreference := detectTimePreference text |}.
Proof.
  intros tzdata localZone chrono text referenceDate lo result others Hlo Hweek
         Hres midnight window.
  unfold parseTimeExpression. rewrite Hres. cbv zeta.
  rewrite Hweek, !andb_false_r. unfold setTimeOfDay.
  assert (Hmid : forall h, setHours tzdata localZone (chrono_start result) h 0
                           = midnight + h * 3600000).
  { intros h. unfold setHours, midnight. lia. }
  unfold window.
  destruct (detectTimePreference text); cbn [fst snd];
    rewrite (setHours_setHours tzdata localZone lo Hlo) by lia;
    rewrite !Hmid; reflexivity.
Qed.

(** "tomorrow at 2:30 pm" in UTC: 17:00 to 21:00. *)
Lemma parsed_range_window_witness :
  parseTimeExpression fixedZones "UTC"
    (fun _ _ => [ {| chrono_start := utc 2024 2 7 14 30 0; chrono_end := None |} ])
    "tomorrow at 2:30 pm" (utc 2024 2 6 10 0 0)
  = Some {| range_startDate := utc 2024 2 7 17 0 0;
            range_endDate := utc 2024 2 7 21 0 0;
            range_timePreference := evening |}.
Proof.
  pose proof (parsed_range_is_a_fixed_window_of_the_day fixedZones "UTC"
                (fun _ _ => [ {| chrono_start := utc 2024 2 7 14 30 0;
                                 chrono_end := None |} ])
                "tomorrow at 2:30 pm" (utc 2024 2 6 10 0 0) 0
                {| chrono_start := utc 2024 2 7 14 30 0; chrono_end := None |}
                [] (fun t => eq_refl) eq_refl eq_refl) as H.
  rewrite H. vm_compute. reflexivity.
Defined.






(** ** The scanner on the process's clock *)

Section LegacyFacts.

Variable tzdata : string -> Z -> Z.
Variable localZone : string.
Variable busyPeriods : list Period.
Variables endDate slotDuration : Z.
Variable preference : option TimePreference.
Variable isSingleDaySearch : bool.

Let step := legacyStep tzdata localZone busyPeriods slotDuration preference
              isSingleDaySearch.
Let loop := legacyLoop tzdata localZone busyPeriods endDate slotDuration
              preference isSingleDaySearch.

Lemma applyTimePreference_later date :
  date - 86400000 < applyTimePreference tzdata localZone date preference.
Proof.
  pose proof (Z.mod_pos_bound (wallClock tzdata localZone date) 86400000
                ltac:(lia)) as Hb.
  unfold applyTimePreference, setHours.
  destruct preference as [[| | |]|]; lia.
Qed.

Lemma legacyStep_later st :
  currentTime st + 1800000 <= currentTime (step st).
Proof.
  unfold step, legacyStep. cbv zeta. cbn [currentTime].
  destruct (getHours tzdata localZone (currentTime st + 30 * 60 * 1000) >=? 18).
  - pose proof (applyTimePreference_later
                  (addDays (currentTime st + 30 * 60 * 1000) 1)) as H.
    unfold addDays in *. lia.
  - lia.
Qed.

Lemma legacyStep_slots st :
  freeSlots (step st) = freeSlots st
  \/ (freeSlots (step st)
      = freeSlots st ++ [ {| slot_start := currentTime st;
                             slot_end := currentTime st + slotDuration;
                             slot_available := true |} ]
      /\ isSlotFree busyPeriods (currentTime st) (currentTime st + slotDuration)
         = true
      /\ isWithinWorkingHours tzdata localZone (currentTime st) isSingleDaySearch
         = true).
Proof.
  unfold step, legacyStep. cbv zeta. cbn [freeSlots].
  destruct (isSlotFree busyPeriods (currentTime st) (currentTime st + slotDuration)
            && isWithinWorkingHours tzdata localZone (currentTime st)
                 isSingleDaySearch) eqn:E.
  - right. apply andb_true_iff in E. tauto.
  - left. reflexivity.
Qed.

Lemma legacyLoop_invariant (P : ScanState -> Prop) :
  (forall st, P st -> scanCond endDate st = true -> P (step st)) ->
  forall fuel st st',
    P st -> loop fuel st = Some st' -> P st' /\ scanCond endDate st' = false.
Proof.
  intros Hstep. induction fuel as [|fuel IH]; intros st st' HP Hrun.
  - discriminate.
  - unfold loop in Hrun. simpl in Hrun. fold step loop in Hrun.
    destruct (scanCond endDate st) eqn:Ec.
    + apply (IH (step st)); [apply Hstep; assumption | exact Hrun].
    + inversion Hrun; subst. auto.
Qed.

Lemma legacyLoop_terminates fuel st :
  (Z.to_nat (endDate - currentTime st) < fuel)%nat ->
  exists st', loop fuel st = Some st'.
Proof.
  revert st. induction fuel as [|fuel IH]; intros st Hfuel; [lia|].
  unfold loop. simpl. fold step loop.
  destruct (scanCond endDate st) eqn:Ec; [|eauto].
  apply IH. unfold scanCond in Ec. apply andb_true_iff in Ec.
  destruct Ec as [Ec _]. apply Z.ltb_lt in Ec.
  pose proof (legacyStep_later st). lia.
Qed.

Lemma legacyLoop_slots fuel st st' :
  let P := fun cur s =>
    slot_start s + 1800000 <= cur
    /\ slot_start s < endDate
    /\ slot_end s = slot_start s + slotDuration
    /\ slot_available s = true
    /\ isSlotFree busyPeriods (slot_start s) (slot_start s + slotDuration) = true
    /\ isWithinWorkingHours tzdata localZone (slot_start s) isSingleDaySearch
       = true in
  Forall (P (currentTime st)) (freeSlots st) ->
  StronglySorted halfHourApart (freeSlots st) ->
  loop fuel st = Some st' ->
  Forall (P (currentTime st')) (freeSlots st')
  /\ StronglySorted halfHourApart (freeSlots st').
Proof.
  intros P H0 Hs0 Hrun.
  apply (legacyLoop_invariant
           (fun s => Forall (P (currentTime s)) (freeSlots s)
                     /\ StronglySorted halfHourApart (freeSlots s)))
    in Hrun; [tauto| |auto].
  intros s [Hall Hs] Hc. unfold scanCond in Hc.
  apply andb_true_iff in Hc. destruct Hc as [Hc _]. apply Z.ltb_lt in Hc.
  pose proof (legacyStep_later s) as Hlater.
  assert (Hmono : Forall (P (currentTime (step s))) (freeSlots s)).
  { eapply Forall_impl; [|exact Hall]. unfold P. intros a Ha.
    repeat split; try tauto. lia. }
  destruct (legacyStep_slots s) as [E|[E [Hf Hw]]]; rewrite E.
  - split; assumption.
  - split.
    + apply Forall_app. split; [exact Hmono|].
      constructor; [|constructor]. unfold P. simpl. repeat split; auto; lia.
    + apply StronglySorted_snoc; [exact Hs|].
      eapply Forall_impl; [|exact Hall]. unfold P, halfHourApart. simpl.
      intros a Ha. lia.
Qed.

End LegacyFacts.

(** X20: [calculateFreeSlots] ends on every input, and returns at most five
    slots, thirty minutes apart or more in the order returned; each starts
    before the end of the window, between 9 and 17 o'clock on the process's
    clock, on a Monday to Friday unless the window is shorter than 24 hours
    or lies within one local date, lasts [duration] minutes, and, when that
    is more than nothing, meets no busy period. *)
Theorem calculateFreeSlots_ends_within_working_hours :
  forall tzdata localZone now busyPeriods startDate endDate duration preference,
    (exists fuel r,
       calculateFreeSlots tzdata localZone now fuel busyPeriods startDate
         endDate duration preference = Some r)
    /\ forall fuel r,
         calculateFreeSlots tzdata localZone now fuel busyPeriods startDate
           endDate duration preference = Some r ->
         (List.length r <= 5)%nat
         /\ StronglySorted halfHourApart r
         /\ forall s, In s r ->
              slot_start s < endDate
              /\ slot_end s = slot_start s + duration * 60 * 1000
              /\ slot_available s = true
              /\ 9 <= getHours tzdata localZone (slot_start s) < 18
              /\ (toDateString tzdata localZone startDate
                  <> toDateString tzdata localZone endDate ->
                  24 * 60 * 60 * 1000 <= endDate - startDate ->
                  1 <= getDay tzdata localZone (slot_start s) <= 5)
              /\ (forall busy,
                    In busy busyPeriods ->
                    busy_start busy < busy_end busy ->
                    0 < duration ->
                    slot_end s <= busy_start busy
                    \/ busy_end busy <= slot_start s).
Proof.
  intros tzdata localZone now busyPeriods startDate endDate duration preference.
  unfold calculateFreeSlots. cbv zeta. split.
  - destruct (legacyLoop_terminates tzdata localZone (sortByStart busyPeriods)
                endDate (duration * 60 * 1000) preference
                ((toDateString tzdata localZone startDate
                  =? toDateString tzdata localZone endDate)
                 || (endDate - startDate <? 24 * 60 * 60 * 1000))
                (S (Z.to_nat (endDate
                              - legacyCursor tzdata localZone now startDate
                                  preference)))
                {| currentTime := legacyCursor tzdata localZone now startDate
                                    preference;
                   freeSlots := []; explored := O |}) as [st Hst];
      [simpl; lia|].
    eexists. eexists. rewrite Hst. reflexivity.
  - intros fuel r Hr.
    match type of Hr with
    | option_map _ ?l = _ => destruct l as [st|] eqn:Hst
    end; [|discriminate].
    cbn [option_map] in Hr.
    assert (Er : r = firstn 5 (freeSlots st)) by congruence.
    clear Hr. subst r.
    apply legacyLoop_slots in Hst; [|constructor|constructor].
    destruct Hst as [Hall Hs].
    split; [apply firstn_le_length|].
    split; [apply StronglySorted_firstn; exact Hs|].
    intros s Hin. apply In_firstn_In in Hin.
    rewrite Forall_forall in Hall. apply Hall in Hin.
    destruct Hin as [_ [Hlt [Hend [Hav [Hfree Hwork]]]]].
    split; [exact Hlt|]. split; [exact Hend|]. split; [exact Hav|].
    unfold isWithinWorkingHours in Hwork. cbv zeta in Hwork.
    apply andb_true_iff in Hwork. destruct Hwork as [Hday Hhours].
    apply andb_true_iff in Hhours. destruct Hhours as [H9 H18].
    apply Z.geb_le in H9. apply Z.ltb_lt in H18.
    split; [lia|]. split.
    + intros Hne Hlong.
      apply orb_true_iff in Hday. destruct Hday as [Hsingle|Hday].
      * apply orb_true_iff in Hsingle. destruct Hsingle as [H|H].
        -- apply Z.eqb_eq in H. contradiction.
        -- apply Z.ltb_lt in H. lia.
      * apply andb_true_iff in Hday. destruct Hday as [H1 H5].
        apply Z.geb_le in H1. apply Z.leb_le in H5. lia.
    + intros busy Hb Hwf Hpos. rewrite Hend.
      rewrite isSlotFree_iff in Hfree.
      assert (Hb' : In busy (sortByStart busyPeriods))
        by (apply In_sortByStart; exact Hb).
      specialize (Hfree busy Hb').
      destruct (Z_le_gt_dec (slot_start s + duration * 60 * 1000)
                  (busy_start busy)); [left; assumption|].
      destruct (Z_le_gt_dec (busy_end busy) (slot_start s));
        [right; assumption|].
      assert (Ho : overlapsBusy (slot_start s)
                     (slot_start s + duration * 60 * 1000) busy = true)
        by (apply overlapsBusy_iff; lia).
      congruence.
Qed.

(** ** The availability check of the voice tools route *)





(** ** Questions *)

(** X22: [detectRequiresUserInput] holds of every message in which one of
    its ten patterns occurs, in either case and wherever it stands, inside a
    longer word too: "show" holds "how", "likely" holds "like". *)
Theorem pattern_anywhere_requires_input :
  forall (before word after pattern : string),
    In pattern questionPatterns ->
    toLowerCase word = pattern ->
    detectRequiresUserInput (before ++ word ++ after) = true.
Proof.
  intros before word after pattern Hin Hw. unfold detectRequiresUserInput.
  apply existsb_exists. exists pattern. split; [exact Hin|].
  rewrite !toLowerCase_app, Hw. apply includes_middle.
Qed.

(** "I'll show you the calendar". *)
Lemma pattern_anywhere_witness :
  detectRequiresUserInput "I'll show you the calendar" = true.
Proof.
  apply (pattern_anywhere_requires_input "I'll s" "how" " you the calendar" "how").
  - simpl. tauto.
  - reflexivity.
Defined.

(** ** Clocks that agree on the minutes *)

Section AlignedFacts.

Variable tzdata : string -> Z -> Z.
Variable localZone : string.
Variable tz : string.
Variables off lo : Z.
Hypothesis fixedZone : forall t, tzdata tz t = off.
Hypothesis fixedLocal : forall t, tzdata localZone t = lo.
Hypothesis wholeHours : (lo - off) mod 60 = 0.

Lemma setHourInTimezone_wall date hour :
  wallClock tzdata tz (setHourInTimezone tzdata localZone date hour tz)
  = getDateStringInTimezone tzdata date tz * 86400000 + hour * 3600000.
Proof.
  pose proof (setHourInTimezone_aligned tzdata localZone date hour tz off
                (fixedZone date)) as H.
  rewrite fixedLocal in H. specialize (H wholeHours).
  unfold wallClock, getDateStringInTimezone. rewrite !fixedZone.
  unfold wallClock. rewrite fixedZone. exact H.
Qed.

Lemma setHourInTimezone_half_hour date hour :
  wallClock tzdata tz (setHourInTimezone tzdata localZone date hour tz)
    mod 1800000 = 0.
Proof.
  rewrite setHourInTimezone_wall.
  replace (getDateStringInTimezone tzdata date tz * 86400000 + hour * 3600000)
    with (0 + (getDateStringInTimezone tzdata date tz * 48 + hour * 2) * 1800000)
    by lia.
  rewrite Z.mod_add by lia. reflexivity.
Qed.

Lemma step_half_hour cur :
  wallClock tzdata tz cur mod 1800000 = 0 ->
  wallClock tzdata tz (cur + 30 * 60 * 1000) mod 1800000 = 0.
Proof.
  unfold wallClock. rewrite !fixedZone. intros H.
  replace (cur + 30 * 60 * 1000 + off * 60000)
    with (cur + off * 60000 + 1 * 1800000) by lia.
  rewrite Z.mod_add by lia. exact H.
Qed.

Variable busyPeriods : list Period.
Variable endDate : Z.
Variables slotDuration bufferBeforeMs bufferAfterMs : Z.
Variables startHour endHour : Z.
Variable excluded : option (list Z).
Variables isSingleDaySearch userSpecifiedEndHour : bool.

Lemma scanStep_half_hour st :
  let step := scanStep tzdata localZone busyPeriods slotDuration bufferBeforeMs
                bufferAfterMs startHour endHour excluded isSingleDaySearch
                userSpecifiedEndHour tz in
  wallClock tzdata tz (currentTime st) mod 1800000 = 0 ->
  wallClock tzdata tz (currentTime (step st)) mod 1800000 = 0.
Proof.
  cbv zeta. intros H. unfold scanStep, advanceToNextDay. cbv zeta.
  destruct (includesDay excluded _); [apply setHourInTimezone_half_hour|].
  destruct (negb isSingleDaySearch && _); [apply setHourInTimezone_half_hour|].
  destruct ((_ <? startHour) || (_ >? endHour)).
  { destruct (_ >? endHour); apply setHourInTimezone_half_hour. }
  destruct (negb userSpecifiedEndHour && _); [apply setHourInTimezone_half_hour|].
  cbn [currentTime]. apply step_half_hour. exact H.
Qed.

Lemma scanLoop_half_hour fuel st st' :
  wallClock tzdata tz (currentTime st) mod 1800000 = 0 ->
  Forall (fun s => wallClock tzdata tz (slot_start s) mod 1800000 = 0)
    (freeSlots st) ->
  scanLoop tzdata localZone busyPeriods endDate slotDuration bufferBeforeMs
    bufferAfterMs startHour endHour excluded isSingleDaySearch
    userSpecifiedEndHour tz fuel st = Some st' ->
  Forall (fun s => wallClock tzdata tz (slot_start s) mod 1800000 = 0)
    (freeSlots st').
Proof.
  intros Hc Hall Hrun.
  apply (scanLoop_invariant tzdata localZone busyPeriods endDate slotDuration
           bufferBeforeMs bufferAfterMs startHour endHour excluded
           isSingleDaySearch userSpecifiedEndHour tz
           (fun s => wallClock tzdata tz (currentTime s) mod 1800000 = 0
                     /\ Forall (fun x => wallClock tzdata tz (slot_start x)
                                           mod 1800000 = 0) (freeSlots s)))
    in Hrun; [tauto| |auto].
  intros s [Hcs Hs] _. split; [apply scanStep_half_hour; exact Hcs|].
  destruct (scanStep_pushed_day tzdata localZone busyPeriods slotDuration
              bufferBeforeMs bufferAfterMs startHour endHour excluded
              isSingleDaySearch userSpecifiedEndHour tz s) as [E|[E _]];
    rewrite E; [exact Hs|].
  apply Forall_app. split; [exact Hs|]. constructor; [exact Hcs|constructor].
Qed.

End AlignedFacts.

(** X23: in a zone of one offset, with the process's zone of one offset
    whole hours away from it, [setHourInTimezone] returns the instant at
    which the zone's clock shows [hour]:00:00.000 on the local date of
    [date]; for an hour from 0 to 23 that instant has the same local date,
    reads [hour] o'clock, and is left where it is by a second call. *)
Theorem setHourInTimezone_on_agreeing_clocks :
  forall tzdata localZone (date hour : Z) (tz : string) (off lo : Z),
    (forall t, tzdata tz t = off) ->
    (forall t, tzdata localZone t = lo) ->
    (lo - off) mod 60 = 0 ->
    0 <= hour < 24 ->
    let result := setHourInTimezone tzdata localZone date hour tz in
    wallClock tzdata tz result
    = getDateStringInTimezone tzdata date tz * 86400000 + hour * 3600000
    /\ getDateStringInTimezone tzdata result tz
       = getDateStringInTimezone tzdata date tz
    /\ getHourInTimezone tzdata result tz = hour
    /\ setHourInTimezone tzdata localZone result hour tz = result.
Proof.
  intros tzdata localZone date hour tz off lo Hz Hl Hal Hh result.
  pose proof (setHourInTimezone_wall tzdata localZone tz off lo Hz Hl Hal
                date hour) as Hw.
  fold result in Hw.
  set (day := getDateStringInTimezone tzdata date tz) in *.
  assert (Hday : getDateStringInTimezone tzdata result tz = day).
  { unfold getDateStringInTimezone. rewrite Hw.
    symmetry. apply Z.div_unique with (r := hour * 3600000); lia. }
  assert (Hhour : getHourInTimezone tzdata result tz = hour).
  { unfold getHourInTimezone. rewrite Hw.
    replace (day * 86400000 + hour * 3600000)
      with (0 + (day * 24 + hour) * 3600000) by lia.
    rewrite Z.div_add by lia. simpl.
    replace (day * 24 + hour) with (hour + day * 24) by lia.
    rewrite Z.mod_add by lia. apply Z.mod_small. exact Hh. }
  split; [exact Hw|]. split; [exact Hday|]. split; [exact Hhour|].
  pose proof (setHourInTimezone_wall tzdata localZone tz off lo Hz Hl Hal
                result hour) as Hw2.
  rewrite Hday in Hw2. unfold wallClock in Hw, Hw2. rewrite !Hz in *. lia.
Qed.

(** 10:15 of 2024-02-06 in Asia/Kolkata, the process there too, set to 9
    o'clock. *)
Lemma setHourInTimezone_agreeing_witness :
  setHourInTimezone fixedZones "Asia/Kolkata" (ist 2024 2 6 10 15 0) 9
    "Asia/Kolkata" = ist 2024 2 6 9 0 0
  /\ getHourInTimezone fixedZones
       (setHourInTimezone fixedZones "Asia/Kolkata" (ist 2024 2 6 10 15 0) 9
          "Asia/Kolkata") "Asia/Kolkata" = 9.
Proof.
  split; [vm_compute; reflexivity|].
  apply (setHourInTimezone_on_agreeing_clocks fixedZones "Asia/Kolkata"
           (ist 2024 2 6 10 15 0) 9 "Asia/Kolkata" 330 330).
  - intros t. reflexivity.
  - intros t. reflexivity.
  - reflexivity.
  - lia.
Defined.

(** X24: under the same condition on the clocks, when the window does not
    start today or [now] is not past the start hour, every slot returned by
    [calculateFreeSlotsAdvanced] starts on a full or a half hour of the
    zone's clock. *)
Theorem returned_slots_start_on_half_hours :
  forall tzdata localZone now fuel busyPeriods startDate endDate duration
         options off lo r s,
    (forall t, tzdata (zoneOf options) t = off) ->
    (forall t, tzdata localZone t = lo) ->
    (lo - off) mod 60 = 0 ->
    (getDateStringInTimezone tzdata now (zoneOf options)
     <> getDateStringInTimezone tzdata startDate (zoneOf options)
     \/ now <= setHourInTimezone tzdata localZone startDate
                 (startHourOf options) (zoneOf options)) ->
    calculateFreeSlotsAdvanced tzdata localZone now fuel busyPeriods
      startDate endDate duration options = Some r ->
    In s r ->
    wallClock tzdata (zoneOf options) (slot_start s) mod 1800000 = 0.
Proof.
  intros tzdata localZone now fuel busyPeriods startDate endDate duration
         options off lo r s Hz Hl Hal Hnot Hr Hin.
  apply calc_scan in Hr. destruct Hr as [st [Hst ->]].
  apply In_firstn_In in Hin.
  unfold scanAdvanced in Hst. cbv zeta in Hst.
  apply (scanLoop_half_hour tzdata localZone (zoneOf options) off lo Hz Hl Hal)
    in Hst.
  - rewrite Forall_forall in Hst. exact (Hst s Hin).
  - cbn [currentTime]. unfold initialCursor. cbv zeta.
    assert (E : (getDateStringInTimezone tzdata now (zoneOf options)
                 =? getDateStringInTimezone tzdata startDate (zoneOf options))
                && (now >? setHourInTimezone tzdata localZone startDate
                             (startHourOf options) (zoneOf options)) = false).
    { apply andb_false_iff. destruct Hnot as [H|H].
      - left. apply Z.eqb_neq. exact H.
      - right. rewrite Z.gtb_ltb. apply Z.ltb_ge. exact H. }
    rewrite E.
    apply (setHourInTimezone_half_hour tzdata localZone (zoneOf options) off lo
             Hz Hl Hal).
  - constructor.
Qed.

(** The search of 2024-02-06 in Asia/Kolkata, from another day, the process
    there too. *)
Lemma returned_slots_half_hours_witness :
  wallClock fixedZones (zoneOf (inZone "Asia/Kolkata")) (ist 2024 2 6 9 30 0)
    mod 1800000 = 0.
Proof.
  apply (returned_slots_start_on_half_hours fixedZones "Asia/Kolkata" 0 100 []
           (ist 2024 2 6 0 0 0) (ist 2024 2 7 0 0 0) 30 (inZone "Asia/Kolkata")
           330 330
           (map (fun k => {| slot_start := ist 2024 2 6 9 0 0 + k * 1800000;
                             slot_end := ist 2024 2 6 9 30 0 + k * 1800000;
                             slot_available := true |})
                [0; 1; 2; 3; 4])
           {| slot_start := ist 2024 2 6 9 30 0; slot_end := ist 2024 2 6 10 0 0;
              slot_available := true |}).
  - intros t. reflexivity.
  - intros t. reflexivity.
  - reflexivity.
  - left. vm_compute. discriminate.
  - vm_compute. reflexivity.
  - vm_compute. auto.
Defined.
